(** * HatakeMobile: the local persistence helper and the network manager

    A shallow embedding of [src/utils/storage.ts] (class [StorageManager])
    and [src/utils/network.ts] (class [NetworkManager]), and the properties
    of their cache, recent-search list and offline queue.

    Conventions of the embedding.
    - JavaScript values are the inductive type [JsVal]; numbers are the
      integers [Z] (millisecond timestamps, minutes and counters are all
      integral in this code; NaN, infinities and fractions are not modelled).
    - [AsyncStorage] is a finite map from keys to texts.  Every text this
      module writes is the output of [JSON.stringify] and every read goes
      through [JSON.parse], so a stored text is represented by the value it
      parses to; [jsonify] is the composite [JSON.parse (JSON.stringify v)].
      The device store itself is taken to be reliable (its calls resolve).
    - [Date.now ()] and [Math.random ()] are inputs: every function takes
      the readings it makes as arguments.
    - [async] functions are run to completion one at a time. *)

From Stdlib Require Import ZArith.
From stdpp Require Import gmap strings list pretty.

Local Open Scope string_scope.
Local Open Scope list_scope.
Local Open Scope Z_scope.

(** ** JavaScript values *)

#[local] Unset Elimination Schemes.
Inductive JsVal : Type :=
  | VUndef
  | VNull
  | VBool (b : bool)
  | VNum (n : Z)
  | VStr (s : string)
  | VArr (elems : list JsVal)
  | VObj (fields : list (string * JsVal)).
#[local] Set Elimination Schemes.

(** The result of an operation that may throw (a rejected promise). *)
Inductive JsError : Type := Error (message : string).

Inductive Outcome (A : Type) : Type :=
  | Returns (a : A)
  | Throws (e : JsError).
Arguments Returns {A} a.
Arguments Throws {A} e.

(** ToBoolean: what [if (v)], [!v], [v && _] and [v || _] test. *)
Definition truthy (v : JsVal) : bool :=
  match v with
  | VUndef | VNull => false
  | VBool b => b
  | VNum n => negb (n =? 0)
  | VStr s => negb (String.eqb s "")
  | VArr _ | VObj _ => true
  end.

(** [a || b] *)
Definition js_or (a b : JsVal) : JsVal := if truthy a then a else b.

(** Property read [v.k]; a missing property, or a property of a value that
    is not an object, reads as [undefined]. *)
Fixpoint assoc (k : string) (fields : list (string * JsVal)) : JsVal :=
  match fields with
  | [] => VUndef
  | (k', x) :: rest => if String.eqb k k' then x else assoc k rest
  end.

Definition getProp (v : JsVal) (k : string) : JsVal :=
  match v with
  | VObj fields => assoc k fields
  | _ => VUndef
  end.

(** Strict equality [a === b] on primitive values.  Two arrays or objects
    read from different places are different references. *)
Definition strict_eq (a b : JsVal) : bool :=
  match a, b with
  | VUndef, VUndef | VNull, VNull => true
  | VBool x, VBool y => Bool.eqb x y
  | VNum x, VNum y => x =? y
  | VStr x, VStr y => String.eqb x y
  | _, _ => false
  end.

(** [JSON.parse (JSON.stringify v)] for a value other than [undefined]:
    an [undefined] array element becomes [null], a property whose value is
    [undefined] is left out. *)
Fixpoint jsonify (v : JsVal) : JsVal :=
  match v with
  | VArr elems =>
      VArr (map (fun x => match x with VUndef => VNull | _ => jsonify x end) elems)
  | VObj fields =>
      VObj (flat_map (fun '(k, x) =>
                        match x with VUndef => [] | _ => [(k, jsonify x)] end)
                     fields)
  | _ => v
  end.

(** [JSON.stringify v]: [None] stands for the result [undefined], which is
    what [JSON.stringify (undefined)] gives. *)
Definition JSON_stringify (v : JsVal) : option JsVal :=
  match v with
  | VUndef => None
  | _ => Some (jsonify v)
  end.

(** A value is JSON data when [undefined] occurs nowhere in it. *)
Fixpoint json_data (v : JsVal) : bool :=
  match v with
  | VUndef => false
  | VArr elems => forallb json_data elems
  | VObj fields => forallb (fun '(_, x) => json_data x) fields
  | _ => true
  end.

(** ** Ids of queue items *)

(** What one queue item is made from: the two readings of [Date.now ()]
    and the rendering of [Math.random ()] in the template literal. *)
Record Entropy := {
  id_now : Z;
  id_random : string;
  stamp_now : Z;
}.

(** [`${Date.now()}_${Math.random()}`] *)
Definition mkId (e : Entropy) : string :=
  pretty (id_now e) +:+ "_" +:+ id_random e.

Definition is_nullish (v : JsVal) : bool :=
  match v with VUndef | VNull => true | _ => false end.

(** ** StorageManager (storage.ts) *)

Abbreviation Storage := (gmap string JsVal).

Module StorageManager.

(** [setItem]: [AsyncStorage.setItem] rejects a value that is not a string,
    which is the case exactly when [JSON.stringify] gave [undefined]; the
    [catch] block logs and rethrows. *)
Definition setItem (key : string) (value : JsVal) (s : Storage)
  : Outcome unit * Storage :=
  match JSON_stringify value with
  | Some jsonValue => (Returns tt, <[key := jsonValue]> s)
  | None => (Throws (Error "AsyncStorage: value is not a string"), s)
  end.

(** [getItem]: [jsonValue != null ? JSON.parse(jsonValue) : null]. *)
Definition getItem (key : string) (s : Storage) : JsVal :=
  match s !! key with
  | Some jsonValue => jsonValue
  | None => VNull
  end.

Definition removeItem (key : string) (s : Storage) : Storage := delete key s.

Definition clear (s : Storage) : Storage := ∅.

(** *** Cache with expiration *)

Definition cacheKeyOf (key : string) : string := "cache_" +:+ key.

(** [setCache key data expirationMinutes]; [expirationMinutes] is [None]
    when the argument is omitted.  [now_stamp] and [now_expiry] are the two
    readings of [Date.now ()], in the order the object literal makes them. *)
Definition setCache (key : string) (data : JsVal) (expirationMinutes : option Z)
    (now_stamp now_expiry : Z) (s : Storage) : Outcome unit * Storage :=
  let expiresAt :=
    match expirationMinutes with
    | Some m => if truthy (VNum m) then VNum (now_expiry + m * 60 * 1000) else VUndef
    | None => VUndef
    end in
  let cacheItem :=
    VObj [("data", data); ("timestamp", VNum now_stamp); ("expiresAt", expiresAt)] in
  setItem (cacheKeyOf key) cacheItem s.

(** [Date.now () > e] for [e] of the declared type [number]. *)
Definition now_after (now : Z) (e : JsVal) : bool :=
  match e with
  | VNum x => x <? now
  | _ => false
  end.

(** [getCache key], reading [Date.now ()] as [now]: the value returned and
    the storage left behind. *)
Definition getCache (key : string) (now : Z) (s : Storage) : JsVal * Storage :=
  let cacheItem := getItem (cacheKeyOf key) s in
  if negb (truthy cacheItem) then (VNull, s)
  else if truthy (getProp cacheItem "expiresAt")
          && now_after now (getProp cacheItem "expiresAt")
       then (VNull, removeItem (cacheKeyOf key) s)
       else (getProp cacheItem "data", s).

(** *** Persisted offline queue *)

(** [StorageManager.addToOfflineQueue]: a [TypeError] (the stored value is
    not an array) is caught and logged, leaving the storage as it was. *)
Definition addToOfflineQueue (action : string) (data : JsVal)
    (e : Entropy) (s : Storage) : Storage :=
  match js_or (getItem "offline_queue" s) (VArr []) with
  | VArr queue =>
      let item := VObj [("id", VStr (mkId e)); ("action", VStr action);
                        ("data", data); ("timestamp", VNum (stamp_now e))] in
      match setItem "offline_queue" (VArr (queue ++ [item])) s with
      | (Returns _, s') => s'
      | (Throws _, _) => s
      end
  | _ => s
  end.

(** [StorageManager.getOfflineQueue] *)
Definition getOfflineQueue (s : Storage) : JsVal :=
  js_or (getItem "offline_queue" s) (VArr []).

(** [StorageManager.removeFromOfflineQueue]: [item.id !== itemId] throws a
    [TypeError] on a [null] element, which is caught like the others. *)
Definition removeFromOfflineQueue (itemId : string) (s : Storage) : Storage :=
  match js_or (getItem "offline_queue" s) (VArr []) with
  | VArr queue =>
      if existsb is_nullish queue then s
      else
        let updatedQueue :=
          List.filter (fun item => negb (strict_eq (getProp item "id") (VStr itemId)))
                      queue in
        match setItem "offline_queue" (VArr updatedQueue) s with
        | (Returns _, s') => s'
        | (Throws _, _) => s
        end
  | _ => s
  end.

(** *** Recent searches *)

Inductive SearchType := posts | marketplace | users.

Definition searchTypeName (t : SearchType) : string :=
  match t with
  | posts => "posts"
  | marketplace => "marketplace"
  | users => "users"
  end.

Definition recentKey (t : SearchType) : string := "recent_" +:+ searchTypeName t.

(** [StorageManager.addRecentSearch]; calling [filter] on a stored value
    that is not an array throws, and the [catch] block only logs. *)
Definition addRecentSearch (query : string) (t : SearchType) (s : Storage) : Storage :=
  match js_or (getItem (recentKey t) s) (VArr []) with
  | VArr recent =>
      let filtered :=
        List.filter (fun item => negb (strict_eq item (VStr query))) recent in
      let updated := take 10 (VStr query :: filtered) in
      match setItem (recentKey t) (VArr updated) s with
      | (Returns _, s') => s'
      | (Throws _, _) => s
      end
  | _ => s
  end.

Definition getRecentSearches (t : SearchType) (s : Storage) : JsVal :=
  js_or (getItem (recentKey t) s) (VArr []).

End StorageManager.

Import StorageManager.

(** ** NetworkManager (network.ts) *)

Record NetworkState := {
  isConnected : bool;
  isInternetReachable : bool;
  type : string;
  isWifiEnabled : option bool;
}.

(** The state NetInfo hands to the listener: [isConnected] and
    [isInternetReachable] are [boolean | null]. *)
Record NetInfoState := {
  ni_isConnected : option bool;
  ni_isInternetReachable : option bool;
  ni_type : string;
  ni_isWifiEnabled : option bool;
}.

(** [x || false] for [x : boolean | null] *)
Definition orFalse (x : option bool) : bool :=
  match x with Some b => b | None => false end.

Definition toNetworkState (state : NetInfoState) : NetworkState :=
  {| isConnected := orFalse (ni_isConnected state);
     isInternetReachable := orFalse (ni_isInternetReachable state);
     type := ni_type state;
     isWifiEnabled := ni_isWifiEnabled state |}.

Definition initialNetworkState : NetworkState :=
  {| isConnected := false; isInternetReachable := false;
     type := "unknown"; isWifiEnabled := None |}.

(** An item of the in-memory queue.  [retryCount] is absent ([None]) on an
    item that was read back from storage. *)
Record QueueItem := {
  id : string;
  action : string;
  data : JsVal;
  timestamp : Z;
  retryCount : option Z;
}.

(** An element of the persisted array read at the shape the queue code
    gives it; [None] when the element does not have that shape. *)
Definition readItem (v : JsVal) : option QueueItem :=
  match getProp v "id", getProp v "action", getProp v "timestamp" with
  | VStr i, VStr a, VNum t =>
      match getProp v "retryCount" with
      | VUndef => Some {| id := i; action := a; data := getProp v "data";
                          timestamp := t; retryCount := None |}
      | VNum n => Some {| id := i; action := a; data := getProp v "data";
                          timestamp := t; retryCount := Some n |}
      | _ => None
      end
  | _, _, _ => None
  end.

(** [await StorageManager.getOfflineQueue ()] as the in-memory queue. *)
Definition loadQueue (s : Storage) : option (list QueueItem) :=
  match getOfflineQueue s with
  | VArr elems => mapM readItem elems
  | _ => None
  end.

(** [item.retryCount || 0] *)
Definition retryOrZero (item : QueueItem) : Z :=
  match retryCount item with
  | Some n => if truthy (VNum n) then n else 0
  | None => 0
  end.

(** [item.retryCount = (item.retryCount || 0) + 1] *)
Definition bumpRetry (item : QueueItem) : QueueItem :=
  {| id := id item; action := action item; data := data item;
     timestamp := timestamp item; retryCount := Some (retryOrZero item + 1) |}.

(** [item.retryCount >= 3] once the count has been written. *)
Definition maxRetriesReached (item : QueueItem) : bool :=
  match retryCount item with
  | Some n => 3 <=? n
  | None => false
  end.

(** The queue object after an attempt that succeeded ([true]) or threw. *)
Definition afterAttempt (a : QueueItem * bool) : QueueItem :=
  if a.2 then a.1 else bumpRetry a.1.

(** The attempt succeeded, or it failed and the count reached the limit. *)
Definition dropped (a : QueueItem * bool) : bool :=
  a.2 || maxRetriesReached (bumpRetry a.1).

(** [processedItems.includes (x)] *)
Definition includes (processedItems : list string) (x : string) : bool :=
  existsb (String.eqb x) processedItems.

(** The four readings of [Date.now ()] on the paths of [makeRequest]. *)
Record RequestTimes := {
  t_offline_lookup : Z;
  t_stamp : Z;
  t_expiry : Z;
  t_failure_lookup : Z;
}.

(** [if (cacheKey)]: an omitted key and the empty string are both falsy. *)
Definition givenKey (cacheKey : option string) : option string :=
  match cacheKey with
  | Some k => if truthy (VStr k) then Some k else None
  | None => None
  end.

Module NetworkManager.

Section Manager.

(** Whatever [executeOfflineAction] and the wrapped requests act on. *)
Context {Backend : Type}.

(** The manager object, the device storage, the backend, and what the
    manager has done so far: the items handed to [executeOfflineAction],
    the listener notifications, the alerts shown. *)
Record World := {
  networkState : NetworkState;
  listeners : list nat;
  offlineQueue : list QueueItem;
  storage : Storage;
  backend : Backend;
  executed : list QueueItem;
  notified : list (nat * NetworkState);
  alerts : list (string * string);
}.

Definition set_storage (s : Storage) (w : World) : World :=
  {| networkState := networkState w; listeners := listeners w;
     offlineQueue := offlineQueue w; storage := s; backend := backend w;
     executed := executed w; notified := notified w; alerts := alerts w |}.

Definition set_backend (b : Backend) (w : World) : World :=
  {| networkState := networkState w; listeners := listeners w;
     offlineQueue := offlineQueue w; storage := storage w; backend := b;
     executed := executed w; notified := notified w; alerts := alerts w |}.

(** The constructor: default state, then [initialize] loads the queue. *)
Definition initialize (s : Storage) (b : Backend) : option World :=
  queue ← loadQueue s;
  Some {| networkState := initialNetworkState; listeners := [];
          offlineQueue := queue; storage := s; backend := b;
          executed := []; notified := []; alerts := [] |}.


Definition isOnline (w : World) : bool :=
  isConnected (networkState w) && isInternetReachable (networkState w).

Definition isOffline (w : World) : bool := negb (isOnline w).


(** [NetworkManager.addToOfflineQueue]: the in-memory item is built from
    [e_mem]; [StorageManager.addToOfflineQueue] then builds the persisted
    item on its own, from [e_sto]. *)
Definition addToOfflineQueue (action0 : string) (data0 : JsVal)
    (e_mem e_sto : Entropy) (w : World) : World :=
  let queueItem :=
    {| id := mkId e_mem; action := action0; data := data0;
       timestamp := stamp_now e_mem; retryCount := Some 0 |} in
  {| networkState := networkState w; listeners := listeners w;
     offlineQueue := offlineQueue w ++ [queueItem];
     storage := StorageManager.addToOfflineQueue action0 data0 e_sto (storage w);
     backend := backend w;
     executed := executed w; notified := notified w; alerts := alerts w |}.

(** [executeOfflineAction] as the source has it: it logs and returns. *)
Definition executeOfflineAction_logging (item : QueueItem) (b : Backend)
  : Outcome unit * Backend := (Returns tt, b).

(** The replay is stated for any [executeOfflineAction], since the
    retry branch only runs for one that can throw. *)
Variable executeOfflineAction : QueueItem -> Backend -> Outcome unit * Backend.

(** What the [for (const item of this.offlineQueue)] loop leaves. *)
Record LoopResult := {
  loop_items : list QueueItem;
  loop_processed : list string;
  loop_backend : Backend;
  loop_attempts : list (QueueItem * bool);
}.

Fixpoint replayLoop (items : list QueueItem) (b : Backend) : LoopResult :=
  match items with
  | [] => {| loop_items := []; loop_processed := []; loop_backend := b;
             loop_attempts := [] |}
  | item :: rest =>
      match executeOfflineAction item b with
      | (Returns _, b1) =>
          let r := replayLoop rest b1 in
          {| loop_items := item :: loop_items r;
             loop_processed := id item :: loop_processed r;
             loop_backend := loop_backend r;
             loop_attempts := (item, true) :: loop_attempts r |}
      | (Throws _, b1) =>
          let item' := bumpRetry item in
          let r := replayLoop rest b1 in
          {| loop_items := item' :: loop_items r;
             loop_processed :=
               (if maxRetriesReached item' then [id item'] else [])
               ++ loop_processed r;
             loop_backend := loop_backend r;
             loop_attempts := (item, false) :: loop_attempts r |}
      end
  end.

Definition syncAlert (n : nat) : string * string :=
  ("Sync Complete", pretty n +:+ " offline actions have been synchronized.").

Definition processOfflineQueue (w : World) : World :=
  if (length (offlineQueue w) =? 0)%nat then w
  else
    let r := replayLoop (offlineQueue w) (backend w) in
    let processedItems := loop_processed r in
    {| networkState := networkState w; listeners := listeners w;
       offlineQueue :=
         List.filter (fun item => negb (includes processedItems (id item)))
                     (loop_items r);
       storage :=
         fold_left (fun s itemId => StorageManager.removeFromOfflineQueue itemId s)
                   processedItems (storage w);
       backend := loop_backend r;
       executed := executed w ++ (loop_attempts r).*1;
       notified := notified w;
       alerts :=
         if (0 <? length processedItems)%nat
         then alerts w ++ [syncAlert (length processedItems)]
         else alerts w |}.

(** The listener registered with [NetInfo.addEventListener]. *)
Definition onNetInfoChange (state : NetInfoState) (w : World) : World :=
  let newNetworkState := toNetworkState state in
  let wasOffline := negb (isConnected (networkState w)) in
  let isNowOnline := isConnected newNetworkState in
  let w1 :=
    {| networkState := newNetworkState; listeners := listeners w;
       offlineQueue := offlineQueue w; storage := storage w;
       backend := backend w; executed := executed w;
       notified := notified w ++ map (fun l => (l, newNetworkState)) (listeners w);
       alerts := alerts w |} in
  if wasOffline && isNowOnline then processOfflineQueue w1 else w1.

(** *** makeRequest *)

Record RequestResult := {
  res_outcome : Outcome JsVal;
  res_world : World;
  res_called : bool;
}.

Definition noConnectionError : JsError :=
  Error "No internet connection and no cached data available".

(** The [catch (error)] block of [makeRequest]. *)
Definition requestFailed (error : JsError) (cacheKey : option string)
    (now : Z) (w : World) : RequestResult :=
  match givenKey cacheKey with
  | Some k =>
      let '(cachedData, s1) := getCache k now (storage w) in
      if truthy cachedData
      then {| res_outcome := Returns cachedData; res_world := set_storage s1 w;
              res_called := true |}
      else {| res_outcome := Throws error; res_world := set_storage s1 w;
              res_called := true |}
  | None => {| res_outcome := Throws error; res_world := w; res_called := true |}
  end.

(** The offline branch once the cache has given nothing. *)
Definition fallbackOrThrow (fallbackData : JsVal) (w : World) : RequestResult :=
  match fallbackData with
  | VUndef => {| res_outcome := Throws noConnectionError; res_world := w;
                 res_called := false |}
  | _ => {| res_outcome := Returns fallbackData; res_world := w;
            res_called := false |}
  end.

Definition makeRequest (requestFn : Backend -> Outcome JsVal * Backend)
    (fallbackData : JsVal) (cacheKey : option string) (t : RequestTimes)
    (w : World) : RequestResult :=
  if isOffline w then
    match givenKey cacheKey with
    | Some k =>
        let '(cachedData, s1) := getCache k (t_offline_lookup t) (storage w) in
        if truthy cachedData
        then {| res_outcome := Returns cachedData; res_world := set_storage s1 w;
                res_called := false |}
        else fallbackOrThrow fallbackData (set_storage s1 w)
    | None => fallbackOrThrow fallbackData w
    end
  else
    match requestFn (backend w) with
    | (Returns result, b1) =>
        match givenKey cacheKey with
        | Some k =>
            match setCache k result (Some 30) (t_stamp t) (t_expiry t) (storage w) with
            | (Returns _, s1) =>
                {| res_outcome := Returns result;
                   res_world := set_storage s1 (set_backend b1 w);
                   res_called := true |}
            | (Throws error, s1) =>
                requestFailed error cacheKey (t_failure_lookup t)
                              (set_storage s1 (set_backend b1 w))
            end
        | None => {| res_outcome := Returns result; res_world := set_backend b1 w;
                     res_called := true |}
        end
    | (Throws error, b1) =>
        requestFailed error cacheKey (t_failure_lookup t) (set_backend b1 w)
    end.

(** *** A session of the manager *)

Inductive SessionStep :=
  | Enqueue (action0 : string) (data0 : JsVal) (e_mem e_sto : Entropy)
  | NetChange (state : NetInfoState)
  | BackendChange (f : Backend -> Backend).

Definition step (w : World) (st : SessionStep) : World :=
  match st with
  | Enqueue a d e_mem e_sto => addToOfflineQueue a d e_mem e_sto w
  | NetChange state => onNetInfoChange state w
  | BackendChange f => set_backend (f (backend w)) w
  end.

Definition runSession (steps : list SessionStep) (w : World) : World :=
  fold_left step steps w.



(** How often an item with id [i] occurs in a list of executed items. *)
Definition countId (i : string) (items : list QueueItem) : nat :=
  length (List.filter (fun item => String.eqb (id item) i) items).

(** How often the item with id [i] was handed to [executeOfflineAction]. *)
Definition executions (i : string) (w : World) : nat := countId i (executed w).


End Manager.

End NetworkManager.

Import NetworkManager.


(** ** Storage traffic between two calls *)

Inductive StorageOp :=
  | OpSetItem (key : string) (value : JsVal)
  | OpRemoveItem (key : string)
  | OpClear.

Definition runOp (s : Storage) (op : StorageOp) : Storage :=
  match op with
  | OpSetItem key value => (setItem key value s).2
  | OpRemoveItem key => removeItem key s
  | OpClear => clear s
  end.

Definition runOps (ops : list StorageOp) (s : Storage) : Storage :=
  fold_left runOp ops s.

(** [op] writes, removes or clears the entry of [key]. *)
Definition touches (key : string) (op : StorageOp) : bool :=
  match op with
  | OpSetItem k _ | OpRemoveItem k => String.eqb k key
  | OpClear => true
  end.

(** [op] stores something under [key]. *)
Definition stores (key : string) (op : StorageOp) : bool :=
  match op with
  | OpSetItem k v => String.eqb k key && negb (strict_eq v VUndef)
  | _ => false
  end.

(** Every stored text is JSON: no stored value contains [undefined]. *)
Definition json_store (s : Storage) : Prop :=
  forall key v, s !! key = Some v -> json_data v = true.

(** The entry [setCache] leaves under [cache_<key>]. *)
Definition cacheEntry (data : JsVal) (stamp : Z) (expiresAt : option Z) : JsVal :=
  match expiresAt with
  | Some e => VObj [("data", data); ("timestamp", VNum stamp); ("expiresAt", VNum e)]
  | None => VObj [("data", data); ("timestamp", VNum stamp)]
  end.

(** ** Worlds and inputs used in the examples *)

(** An executor that can throw: the backend is the number of calls that
    will still fail. *)
Definition failingFirst (item : QueueItem) (n : nat) : Outcome unit * nat :=
  match n with
  | O => (Returns tt, O)
  | S n' => (Throws (Error "request failed"), n')
  end.

Definition netOnline : NetInfoState :=
  {| ni_isConnected := Some true; ni_isInternetReachable := Some true;
     ni_type := "wifi"; ni_isWifiEnabled := Some true |}.

Definition netOffline : NetInfoState :=
  {| ni_isConnected := Some false; ni_isInternetReachable := Some false;
     ni_type := "none"; ni_isWifiEnabled := None |}.


(** The world right after the constructor, with nothing persisted. *)
Definition freshWorld {Backend : Type} (b : Backend) : @World Backend :=
  {| networkState := initialNetworkState; listeners := []; offlineQueue := [];
     storage := ∅; backend := b; executed := []; notified := []; alerts := [] |}.

Definition entropyA : Entropy :=
  {| id_now := 1700000000000; id_random := "0.25"; stamp_now := 1700000000000 |}.

Definition entropyB : Entropy :=
  {| id_now := 1700000000000; id_random := "0.75"; stamp_now := 1700000000001 |}.

Definition entropyC : Entropy :=
  {| id_now := 1700000000500; id_random := "0.5"; stamp_now := 1700000000500 |}.

Definition entropyD : Entropy :=
  {| id_now := 1700000000500; id_random := "0.125"; stamp_now := 1700000000500 |}.

Definition messageData : JsVal := VObj [("text", VStr "hello")].

Definition itemA : QueueItem :=
  {| id := mkId entropyA; action := "send_message"; data := messageData;
     timestamp := stamp_now entropyA; retryCount := Some 0 |}.


(** Two actions queued while offline; the first call to the backend will
    fail. *)
Definition twoQueued : @World nat :=
  addToOfflineQueue "create_post" VNull entropyC entropyD
    (addToOfflineQueue "send_message" messageData entropyA entropyB (freshWorld 1%nat)).

(** One action queued, then the connection comes and goes four times while
    the backend keeps failing. *)
Definition flappingSession : list (@SessionStep nat) :=
  [Enqueue "send_message" messageData entropyA entropyB;
   NetChange netOnline; NetChange netOffline;
   NetChange netOnline; NetChange netOffline;
   NetChange netOnline; NetChange netOffline;
   NetChange netOnline].

(** The action of the example as [StorageManager.addToOfflineQueue]
    persists it, from its own readings. *)
Definition persistedB : JsVal :=
  VObj [("id", VStr (mkId entropyB)); ("action", VStr "send_message");
        ("data", messageData); ("timestamp", VNum (stamp_now entropyB))].

(** One action queued through [NetworkManager.addToOfflineQueue] by the app
    as it is written, whose [executeOfflineAction] only logs. *)
Definition queuedOffline : @World unit :=
  addToOfflineQueue "send_message" messageData entropyA entropyB (freshWorld tt).

Definition afterReconnect : @World unit :=
  onNetInfoChange executeOfflineAction_logging netOnline queuedOffline.

(** A world that is offline and holds the cached value [0] for the key
    "unread", stored at time 1000 for 30 minutes. *)
Definition cachedZero : @World unit :=
  set_storage (setCache "unread" (VNum 0) (Some 30) 1000 1000 ∅).2 (freshWorld tt).

Definition soonAfter : RequestTimes :=
  {| t_offline_lookup := 2000; t_stamp := 2000; t_expiry := 2000;
     t_failure_lookup := 2500 |}.

Definition requestUnread (b : unit) : Outcome JsVal * unit := (Returns (VNum 3), b).

Definition requestTimeout (b : unit) : Outcome JsVal * unit :=
  (Throws (Error "timeout"), b).

(** A storage whose queue holds the one action of the example. *)
Definition persistedOnly : Storage :=
  StorageManager.addToOfflineQueue "send_message" messageData entropyB ∅.

(** ** The rest of StorageManager *)

(** [AsyncStorage.getAllKeys ()]; the order of the keys is the store's. *)
Definition getAllKeys (s : Storage) : list string := (map_to_list s).*1.

(** [AsyncStorage.multiRemove (keys)] *)
Definition multiRemove (keys : list string) (s : Storage) : Storage :=
  fold_left (fun s key => delete key s) keys s.

(** [key.startsWith (p)] *)
Definition startsWith (p key : string) : bool := String.prefix p key.

(** [StorageManager.clearCache] *)
Definition clearCache (s : Storage) : Storage :=
  let keys := getAllKeys s in
  let cacheKeys := List.filter (startsWith "cache_") keys in
  multiRemove cacheKeys s.

(** *** User preferences *)

Definition prefKeyOf (key : string) : string := "pref_" +:+ key.

Definition setUserPreference (key : string) (value : JsVal) (s : Storage)
  : Outcome unit * Storage :=
  setItem (prefKeyOf key) value s.

(** [getUserPreference key defaultValue]; [defaultValue] is [VUndef] when
    the argument is omitted. *)
Definition getUserPreference (key : string) (defaultValue : JsVal) (s : Storage)
  : JsVal :=
  let value := getItem (prefKeyOf key) s in
  if negb (strict_eq value VNull) then value else js_or defaultValue VNull.

(** *** Drafts *)

Inductive DraftType := post | message | listing.

Definition draftTypeName (t : DraftType) : string :=
  match t with
  | post => "post"
  | message => "message"
  | listing => "listing"
  end.

(** [`draft_${type}_`] *)
Definition draftPrefix (t : DraftType) : string :=
  "draft_" +:+ draftTypeName t +:+ "_".

(** [`draft_${type}_${Date.now()}`] *)
Definition draftKeyOf (t : DraftType) (now : Z) : string :=
  draftPrefix t +:+ pretty now.

(** Writing property [k] of an object under construction: an existing
    property keeps its place and takes the new value, a new one goes last. *)
Fixpoint setField (k : string) (v : JsVal) (fields : list (string * JsVal))
  : list (string * JsVal) :=
  match fields with
  | [] => [(k, v)]
  | (k', x) :: rest =>
      if String.eqb k k' then (k, v) :: rest else (k', x) :: setField k v rest
  end.

(** The own enumerable properties a spread [...v] copies: those of an
    object, the indices of an array or of a string (one character each),
    nothing for the other values. *)
Definition ownProps (v : JsVal) : list (string * JsVal) :=
  match v with
  | VObj fields => fields
  | VArr elems => imap (fun i x => (pretty i, x)) elems
  | VStr s =>
      imap (fun i c => (pretty i, VStr (String c EmptyString)))
           (String.list_ascii_of_string s)
  | _ => []
  end.

(** The object an object literal builds from its properties in order. *)
Definition objectOf (props : list (string * JsVal)) : list (string * JsVal) :=
  fold_left (fun acc kv => setField kv.1 kv.2 acc) props [].

(** [StorageManager.saveDraft type data]; [now_key] and [now_created] are
    the readings of [Date.now ()] for the key and for [createdAt]. *)
Definition saveDraft (t : DraftType) (data : JsVal) (now_key now_created : Z)
    (s : Storage) : Outcome unit * Storage :=
  let draftKey := draftKeyOf t now_key in
  setItem draftKey
    (VObj (objectOf (ownProps data
                     ++ [("createdAt", VNum now_created);
                         ("type", VStr (draftTypeName t))])))
    s.

(** [StorageManager.getDrafts type]: no element of [drafts] is [null], so
    the final [filter] keeps them all. *)
Definition getDrafts (t : DraftType) (s : Storage) : list JsVal :=
  let keys := getAllKeys s in
  let draftKeys := List.filter (startsWith (draftPrefix t)) keys in
  let drafts :=
    map (fun key => VObj (objectOf (("key", VStr key) :: ownProps (getItem key s))))
        draftKeys in
  List.filter (fun draft => negb (strict_eq draft VNull)) drafts.

Definition deleteDraft (draftKey : string) (s : Storage) : Storage :=
  removeItem draftKey s.

(** *** Clearing *)

Definition clearOfflineQueue (s : Storage) : Storage := removeItem "offline_queue" s.

Definition clearRecentSearches (t : SearchType) (s : Storage) : Storage :=
  removeItem (recentKey t) s.

(** ** The rest of NetworkManager *)



Inductive ConnectionQuality := excellent | good | poor | offline.

Definition getConnectionQuality {Backend : Type} (w : @World Backend)
  : ConnectionQuality :=
  if isOffline w then offline
  else if String.eqb (type (networkState w)) "wifi" then excellent
  else if String.eqb (type (networkState w)) "cellular" then good
  else if String.eqb (type (networkState w)) "2g" then poor
  else good.

Definition shouldOptimizeForBandwidth {Backend : Type} (w : @World Backend) : bool :=
  match getConnectionQuality w with
  | poor | offline => true
  | _ => false
  end.

(** The queue as [StorageManager.addToOfflineQueue] writes an item of it. *)
Definition persistedItem (action0 : string) (data0 : JsVal) (e : Entropy) : JsVal :=
  VObj [("id", VStr (mkId e)); ("action", VStr action0);
        ("data", data0); ("timestamp", VNum (stamp_now e))].

(** An in-memory item as it is read back from storage: the retry count is
    not part of what is persisted by the queue code. *)
Definition withoutRetryCount (item : QueueItem) : QueueItem :=
  {| id := id item; action := action item; data := data item;
     timestamp := timestamp item; retryCount := None |}.

(** ** Calls of the StorageManager *)

(** One call of a method that can change the storage, with the readings
    of the clock and of [Math.random ()] it makes. *)
Inductive StorageCall :=
  | CallSetItem (key : string) (value : JsVal)
  | CallRemoveItem (key : string)
  | CallClear
  | CallSetCache (key : string) (data : JsVal) (minutes : option Z) (now_stamp now_expiry : Z)
  | CallGetCache (key : string) (now : Z)
  | CallClearCache
  | CallSetUserPreference (key : string) (value : JsVal)
  | CallSaveDraft (t : DraftType) (data : JsVal) (now_key now_created : Z)
  | CallDeleteDraft (draftKey : string)
  | CallAddToOfflineQueue (action0 : string) (data0 : JsVal) (e : Entropy)
  | CallRemoveFromOfflineQueue (itemId : string)
  | CallClearOfflineQueue
  | CallAddRecentSearch (query : string) (t : SearchType)
  | CallClearRecentSearches (t : SearchType).

Definition runCall (s : Storage) (c : StorageCall) : Storage :=
  match c with
  | CallSetItem key value => (setItem key value s).2
  | CallRemoveItem key => removeItem key s
  | CallClear => clear s
  | CallSetCache key data minutes now_stamp now_expiry =>
      (setCache key data minutes now_stamp now_expiry s).2
  | CallGetCache key now => (getCache key now s).2
  | CallClearCache => clearCache s
  | CallSetUserPreference key value => (setUserPreference key value s).2
  | CallSaveDraft t data now_key now_created =>
      (saveDraft t data now_key now_created s).2
  | CallDeleteDraft draftKey => deleteDraft draftKey s
  | CallAddToOfflineQueue action0 data0 e =>
      StorageManager.addToOfflineQueue action0 data0 e s
  | CallRemoveFromOfflineQueue itemId => StorageManager.removeFromOfflineQueue itemId s
  | CallClearOfflineQueue => clearOfflineQueue s
  | CallAddRecentSearch query t => addRecentSearch query t s
  | CallClearRecentSearches t => clearRecentSearches t s
  end.

Definition runCalls (calls : list StorageCall) (s : Storage) : Storage :=
  fold_left runCall calls s.

(** A draft of the examples, with a [type] of its own. *)
Definition deckDraft : list (string * JsVal) :=
  [("title", VStr "Mono red"); ("type", VStr "deck")].

(** A step that puts a new item into the in-memory queue. *)
Definition isEnqueue {Backend : Type} (st : @SessionStep Backend) : bool :=
  match st with
  | Enqueue _ _ _ _ => true
  | _ => false
  end.

(** The item an action persisted with the readings [e] is loaded as. *)
Definition loadedItem (action0 : string) (data0 : JsVal) (e : Entropy) : QueueItem :=
  {| id := mkId e; action := action0; data := data0;
     timestamp := stamp_now e; retryCount := None |}.

(** The persisted queue and the in-memory queue hold the same ids in the
    same order. *)
Definition inStep {Backend : Type} (w : @World Backend) : Prop :=
  json_store (storage w)
  /\ exists p, loadQueue (storage w) = Some p /\ id <$> p = id <$> offlineQueue w.

(** The manager right after its constructor, over [persistedOnly]. *)
Definition loadedWorld : @World nat :=
  {| networkState := initialNetworkState; listeners := [];
     offlineQueue := [loadedItem "send_message" messageData entropyB];
     storage := persistedOnly; backend := 2%nat;
     executed := []; notified := []; alerts := [] |}.

(** [addRecentSearch] called for each query of [queries] in turn. *)
Definition addRecentSearches (queries : list string) (t : SearchType) (s : Storage)
  : Storage :=
  fold_left (fun s query => addRecentSearch query t s) queries s.

(** The manager of the examples once the network is there. *)
Definition onlineWorld : @World unit :=
  onNetInfoChange executeOfflineAction_logging netOnline (freshWorld tt).

Definition tenMinutesLater : RequestTimes :=
  {| t_offline_lookup := 602000; t_stamp := 602000; t_expiry := 602000;
     t_failure_lookup := 602000 |}.

(** * Properties *)

(** ** JavaScript values *)

Section JsVal_induction.
Variable P : JsVal -> Prop.
Hypothesis Hundef : P VUndef.
Hypothesis Hnull : P VNull.
Hypothesis Hbool : forall b, P (VBool b).
Hypothesis Hnum : forall n, P (VNum n).
Hypothesis Hstr : forall s, P (VStr s).
Hypothesis Harr : forall elems, Forall P elems -> P (VArr elems).
Hypothesis Hobj : forall fields, Forall (fun kx => P kx.2) fields -> P (VObj fields).

Fixpoint JsVal_ind (v : JsVal) : P v :=
  match v with
  | VUndef => Hundef
  | VNull => Hnull
  | VBool b => Hbool b
  | VNum n => Hnum n
  | VStr s => Hstr s
  | VArr elems =>
      Harr elems
        ((fix go (l : list JsVal) : Forall P l :=
            match l with
            | [] => List.Forall_nil P
            | x :: l' => List.Forall_cons P x l' (JsVal_ind x) (go l')
            end) elems)
  | VObj fields =>
      Hobj fields
        ((fix go (l : list (string * JsVal)) : Forall (fun kx => P kx.2) l :=
            match l with
            | [] => List.Forall_nil _
            | kx :: l' =>
                List.Forall_cons (fun kx => P kx.2) kx l'
                  (match kx with (_, x) => JsVal_ind x end) (go l')
            end) fields)
  end.
End JsVal_induction.

Lemma json_data_not_undef v : json_data v = true -> v <> VUndef.
Proof. by destruct v. Qed.

(** Serialising and parsing JSON data gives the same value back. *)
Lemma jsonify_json_data v : json_data v = true -> jsonify v = v.
Proof.
  induction v as [| | | | |elems IH|fields IH] using JsVal_ind; simpl; try done.
  - intros Hd. f_equal.
    induction IH as [|x l Hx _ IHl]; simpl in *; [done|].
    apply andb_prop in Hd as [Hx' Hl].
    rewrite IHl by done. f_equal.
    destruct x; try done; by apply Hx.
  - intros Hd. f_equal.
    induction IH as [|[k x] l Hx _ IHl]; simpl in *; [done|].
    apply andb_prop in Hd as [Hx' Hl].
    rewrite IHl by done.
    destruct x; try done; simpl; f_equal; f_equal; by apply Hx.
Qed.

Lemma JSON_stringify_json_data v :
  json_data v = true -> JSON_stringify v = Some v.
Proof.
  intros Hd. destruct v; try done; unfold JSON_stringify;
    by rewrite (jsonify_json_data _ Hd).
Qed.

(** ** setItem / getItem *)

Lemma setItem_returns key v s :
  v <> VUndef -> setItem key v s = (Returns tt, <[key := jsonify v]> s).
Proof. by destruct v. Qed.

Lemma setItem_json_data key v s :
  json_data v = true -> setItem key v s = (Returns tt, <[key := v]> s).
Proof.
  intros Hd. rewrite setItem_returns by by apply json_data_not_undef.
  by rewrite jsonify_json_data.
Qed.

Lemma getItem_insert key v s : getItem key (<[key := v]> s) = v.
Proof. unfold getItem. by rewrite lookup_insert_eq. Qed.

Lemma getItem_insert_ne key key' v (s : Storage) :
  key <> key' -> getItem key' (<[key := v]> s) = getItem key' s.
Proof. intros Hne. unfold getItem. by rewrite lookup_insert_ne. Qed.

Lemma getItem_absent key (s : Storage) : s !! key = None -> getItem key s = VNull.
Proof. intros H. unfold getItem. by rewrite H. Qed.

Lemma eqb_false_ne (a b : string) : String.eqb a b = false -> a <> b.
Proof. by intros H%String.eqb_neq. Qed.

Lemma runOp_untouched key op (s : Storage) :
  touches key op = false -> runOp s op !! key = s !! key.
Proof.
  destruct op as [k v|k|]; simpl; try done.
  - intros Hne%eqb_false_ne. unfold setItem.
    destruct (JSON_stringify v); simpl; [by rewrite lookup_insert_ne|done].
  - intros Hne%eqb_false_ne. unfold removeItem. by rewrite lookup_delete_ne.
Qed.

Lemma runOps_untouched key ops (s : Storage) :
  forallb (fun op => negb (touches key op)) ops = true ->
  runOps ops s !! key = s !! key.
Proof.
  revert s. induction ops as [|op ops IH]; intros s; simpl; [done|].
  intros [Hop Hops]%andb_prop. unfold runOps in *. simpl.
  rewrite IH by done. apply runOp_untouched. by destruct (touches key op).
Qed.

Lemma runOp_not_stored key op (s : Storage) :
  stores key op = false -> s !! key = None -> runOp s op !! key = None.
Proof.
  destruct op as [k v|k|]; simpl.
  - intros Hst Hs. unfold setItem. destruct v; simpl; try done;
      (destruct (String.eqb k key) eqn:E; [done|];
       apply eqb_false_ne in E; by rewrite lookup_insert_ne).
  - intros _ Hs. unfold removeItem.
    destruct (decide (k = key)) as [->|Hne];
      [by rewrite lookup_delete_eq|by rewrite lookup_delete_ne].
  - intros _ _. unfold clear. apply lookup_empty.
Qed.

Lemma runOps_not_stored key ops (s : Storage) :
  forallb (fun op => negb (stores key op)) ops = true ->
  s !! key = None -> runOps ops s !! key = None.
Proof.
  revert s. induction ops as [|op ops IH]; intros s; simpl; [done|].
  intros [Hop Hops]%andb_prop Hs. unfold runOps in *. simpl.
  apply IH; [done|]. apply runOp_not_stored; [|done]. by destruct (stores key op).
Qed.

(** C7.  A JSON value written with [setItem] is read back unchanged by
    [getItem] on the same key, whatever is written to or removed from other
    keys in between; and, from the empty storage, a key that no call has
    stored reads as [null]. *)
Theorem getItem_setItem_roundtrip :
  (forall key v ops (s : Storage),
      json_data v = true ->
      forallb (fun op => negb (touches key op)) ops = true ->
      exists s1, setItem key v s = (Returns tt, s1)
                 /\ getItem key (runOps ops s1) = v)
  /\ (forall key ops,
         forallb (fun op => negb (stores key op)) ops = true ->
         getItem key (runOps ops ∅) = VNull).
Proof.
  split.
  - intros key v ops s Hd Hops. exists (<[key := v]> s). split.
    + by apply setItem_json_data.
    + unfold getItem. rewrite runOps_untouched by done.
      by rewrite lookup_insert_eq.
  - intros key ops Hops. apply getItem_absent.
    apply runOps_not_stored; [done|apply lookup_empty].
Qed.

Lemma getItem_setItem_roundtrip_witness :
  (exists s1,
      setItem "draft" (VObj [("title", VStr "deck"); ("cards", VArr [VNum 4; VNull])]) ∅
      = (Returns tt, s1)
      /\ getItem "draft" (runOps [OpSetItem "other" (VNum 1); OpRemoveItem "gone"] s1)
         = VObj [("title", VStr "deck"); ("cards", VArr [VNum 4; VNull])])
  /\ getItem "draft" (runOps [OpSetItem "other" (VNum 1); OpSetItem "draft" VUndef] ∅)
     = VNull.
Proof.
  split.
  - apply (proj1 getItem_setItem_roundtrip); reflexivity.
  - apply (proj2 getItem_setItem_roundtrip); reflexivity.
Defined.

(** ** setCache / getCache *)

Lemma jsonify_obj fields :
  jsonify (VObj fields)
  = VObj (flat_map (fun '(k, x) =>
                      match x with VUndef => [] | _ => [(k, jsonify x)] end)
                   fields).
Proof. done. Qed.

Lemma keep_field (k : string) data :
  json_data data = true ->
  match data with VUndef => [] | _ => [(k, jsonify data)] end = [(k, data)].
Proof. intros Hd. rewrite (jsonify_json_data _ Hd). by destruct data. Qed.

Lemma setCache_supplied key data m stamp now (s : Storage) :
  json_data data = true -> m <> 0 ->
  setCache key data (Some m) stamp now s
  = (Returns tt,
     <[cacheKeyOf key := cacheEntry data stamp (Some (now + m * 60 * 1000))]> s).
Proof.
  intros Hd Hm. unfold setCache. simpl.
  replace (m =? 0) with false by (symmetry; by apply Z.eqb_neq). simpl.
  rewrite setItem_json_data; [done|]. simpl. by rewrite Hd.
Qed.

Lemma setCache_no_expiry key data minutes stamp now (s : Storage) :
  json_data data = true -> minutes = None \/ minutes = Some 0 ->
  setCache key data minutes stamp now s
  = (Returns tt, <[cacheKeyOf key := cacheEntry data stamp None]> s).
Proof.
  intros Hd Hmin.
  assert (setCache key data minutes stamp now s
          = setItem (cacheKeyOf key)
              (VObj [("data", data); ("timestamp", VNum stamp); ("expiresAt", VUndef)]) s)
    as -> by by destruct Hmin as [-> | ->].
  rewrite setItem_returns by done.
  rewrite jsonify_obj. cbn [flat_map app]. by rewrite (keep_field _ _ Hd).
Qed.

Lemma getCache_entry key data stamp expiresAt now (s : Storage) :
  s !! cacheKeyOf key = Some (cacheEntry data stamp expiresAt) ->
  getCache key now s
  = match expiresAt with
    | Some e => if negb (e =? 0) && (e <? now)
                then (VNull, delete (cacheKeyOf key) s)
                else (data, s)
    | None => (data, s)
    end.
Proof.
  intros Hs. unfold getCache, getItem. rewrite Hs.
  destruct expiresAt as [e|]; simpl; [|done].
  by destruct (negb (e =? 0) && (e <? now)).
Qed.

Lemma getCache_absent key now (s : Storage) :
  s !! cacheKeyOf key = None -> getCache key now s = (VNull, s).
Proof. intros Hs. unfold getCache, getItem. by rewrite Hs. Qed.



(** An expiry timestamp that is the number 0 never expires.  With a clock
    that is not negative and a positive lifetime this cannot arise. *)
Lemma getCache_expiresAt_zero key data stamp now (s : Storage) :
  s !! cacheKeyOf key = Some (cacheEntry data stamp (Some 0)) ->
  getCache key now s = (data, s).
Proof. intros Hs. by rewrite (getCache_entry _ _ _ _ _ _ Hs). Qed.

Lemma expiry_nonzero now0 m : 0 <= now0 -> 0 < m -> now0 + m * 60 * 1000 <> 0.
Proof. lia. Qed.

(** C4, as the claim states it, at a supplied expiration of 0 minutes: the
    entry should carry [expiresAt = now + 0], and so be expired one
    millisecond later; the stored entry has no [expiresAt] and is still
    returned then. *)
Lemma setCache_zero_minutes_no_expiresAt :
  let s1 := (setCache "feed" (VStr "post") (Some 0) 1000 1000 ∅).2 in
  getProp (getItem (cacheKeyOf "feed") s1) "expiresAt" = VUndef
  /\ getProp (getItem (cacheKeyOf "feed") s1) "expiresAt" <> VNum (1000 + 0 * 60 * 1000)
  /\ getCache "feed" 1001 s1 = (VStr "post", s1).
Proof. vm_compute. by repeat split. Qed.

(** C4 (amended).  [setCache] with a supplied expiration other than 0
    stores [expiresAt = now + expirationMinutes*60*1000]; with the
    expiration omitted, or 0, it stores an entry without [expiresAt]; and
    such an entry is returned by [getCache] at every time, the storage
    staying as it is. *)
Theorem setCache_expiresAt :
  (forall key data m stamp now0 (s : Storage),
      json_data data = true -> m <> 0 ->
      exists s1,
        setCache key data (Some m) stamp now0 s = (Returns tt, s1)
        /\ getProp (getItem (cacheKeyOf key) s1) "expiresAt"
           = VNum (now0 + m * 60 * 1000)
        /\ getProp (getItem (cacheKeyOf key) s1) "data" = data)
  /\ (forall key data minutes stamp now0 (s : Storage),
         json_data data = true -> minutes = None \/ minutes = Some 0 ->
         exists s1,
           setCache key data minutes stamp now0 s = (Returns tt, s1)
           /\ getProp (getItem (cacheKeyOf key) s1) "expiresAt" = VUndef
           /\ forall now, getCache key now s1 = (data, s1)).
Proof.
  split.
  - intros key data m stamp now0 s Hd Hm. eexists.
    split; [by apply setCache_supplied|]. by rewrite getItem_insert.
  - intros key data minutes stamp now0 s Hd Hmin. eexists.
    split; [by apply setCache_no_expiry|]. rewrite getItem_insert. split; [done|].
    intros now.
    by rewrite (getCache_entry key data stamp None) by apply lookup_insert_eq.
Qed.

Lemma setCache_expiresAt_witness :
  (exists s1,
      setCache "feed" (VStr "post") (Some 30) 1000 1002 ∅ = (Returns tt, s1)
      /\ getProp (getItem (cacheKeyOf "feed") s1) "expiresAt"
         = VNum (1002 + 30 * 60 * 1000)
      /\ getProp (getItem (cacheKeyOf "feed") s1) "data" = VStr "post")
  /\ (exists s1,
         setCache "feed" (VStr "post") None 1000 1002 ∅ = (Returns tt, s1)
         /\ getProp (getItem (cacheKeyOf "feed") s1) "expiresAt" = VUndef
         /\ forall now, getCache "feed" now s1 = (VStr "post", s1)).
Proof.
  split.
  - apply (proj1 setCache_expiresAt); [reflexivity|lia].
  - apply (proj2 setCache_expiresAt); [reflexivity|by left].
Defined.

(** ** Recent searches *)

Lemma strict_eq_VStr x q : strict_eq x (VStr q) = true <-> x = VStr q.
Proof.
  destruct x; simpl; try (split; [done|by intros ?]).
  rewrite String.eqb_eq. split; [by intros ->|by intros [= ->]].
Qed.

Lemma filter_sublist {A} (f : A -> bool) (l : list A) : List.filter f l `sublist_of` l.
Proof.
  induction l as [|x l IH]; simpl; [done|].
  destruct (f x); [by apply sublist_skip|by apply sublist_cons].
Qed.

Lemma filter_forallb {A} (f g : A -> bool) (l : list A) :
  forallb g l = true -> forallb g (List.filter f l) = true.
Proof.
  induction l as [|x l IH]; simpl; [done|].
  intros [Hx Hl]%andb_prop. destruct (f x); simpl; [rewrite Hx|]; by apply IH.
Qed.

Lemma take_forallb {A} (g : A -> bool) n (l : list A) :
  forallb g l = true -> forallb g (take n l) = true.
Proof.
  revert n. induction l as [|x l IH]; intros [|n]; simpl; try done.
  intros [Hx Hl]%andb_prop. rewrite Hx. by apply IH.
Qed.

Lemma filter_not_elem x q (l : list JsVal) :
  x ∈ List.filter (fun item => negb (strict_eq item (VStr q))) l -> x <> VStr q.
Proof.
  intros [Hin Hf]%list_elem_of_In%filter_In ->.
  assert (strict_eq (VStr q) (VStr q) = true) as E by by apply strict_eq_VStr.
  by rewrite E in Hf.
Qed.

(** What [getItem<string[]>(key) || []] reads from a JSON store. *)
Lemma stored_array key (s : Storage) elems :
  json_store s -> js_or (getItem key s) (VArr []) = VArr elems ->
  forallb json_data elems = true.
Proof.
  intros Hjs. unfold js_or, getItem.
  destruct (s !! key) as [v|] eqn:E; simpl; [|by intros [= <-]].
  destruct (truthy v); [|by intros [= <-]].
  intros ->. by apply (Hjs _ _ E).
Qed.

(** C10.  When the stored list for [t] is [recent] (an array, or nothing
    stored yet), [addRecentSearch query t] stores [query] followed by the
    first nine of the other entries of [recent], in their order: [query]
    is first, occurs nowhere else, the rest is a sub-list of [recent], and
    the list has at most 10 entries. *)
Theorem addRecentSearch_front query t (s : Storage) recent :
  json_store s ->
  getRecentSearches t s = VArr recent ->
  let rest :=
    take 9 (List.filter (fun item => negb (strict_eq item (VStr query))) recent) in
  getRecentSearches t (addRecentSearch query t s) = VArr (VStr query :: rest)
  /\ (VStr query ∉ rest)
  /\ (rest `sublist_of` recent)
  /\ (length (VStr query :: rest) <= 10)%nat.
Proof.
  intros Hjs Hrecent rest. unfold getRecentSearches in Hrecent.
  pose proof (stored_array _ _ _ Hjs Hrecent) as Hdata.
  repeat split.
  - unfold addRecentSearch. rewrite Hrecent.
    change (take 10 (VStr query :: ?l)) with (VStr query :: take 9 l). fold rest.
    rewrite setItem_json_data.
    + unfold getRecentSearches. by rewrite getItem_insert.
    + simpl. by apply take_forallb, filter_forallb.
  - intros Hin. eapply filter_not_elem; [|done].
    eapply sublist_subseteq; [apply sublist_take|exact Hin].
  - etrans; [apply sublist_take|apply filter_sublist].
  - unfold rest. cbn [length]. rewrite length_take. lia.
Qed.

Lemma addRecentSearch_front_witness :
  let s : Storage :=
    {[ "recent_posts" := VArr [VStr "mox"; VStr "lotus"; VStr "mox ruby"] ]} in
  getRecentSearches posts (addRecentSearch "lotus" posts s)
  = VArr [VStr "lotus"; VStr "mox"; VStr "mox ruby"].
Proof.
  intros s.
  apply (addRecentSearch_front "lotus" posts s
           [VStr "mox"; VStr "lotus"; VStr "mox ruby"]).
  - intros key v. unfold s. intros [<- <-]%lookup_singleton_Some. reflexivity.
  - reflexivity.
Defined.

(** ** The replay loop *)

Lemma NoDup_fmap_eq {A B} (f : A -> B) (l : list A) x y :
  NoDup (f <$> l) -> x ∈ l -> y ∈ l -> f x = f y -> x = y.
Proof.
  induction l as [|z l IH]; simpl; [by intros _ ?%elem_of_nil|].
  intros [Hz Hl]%NoDup_cons [->|Hx]%elem_of_cons [->|Hy]%elem_of_cons Hf; try done.
  - destruct Hz. rewrite Hf. by apply list_elem_of_fmap_2.
  - destruct Hz. rewrite <- Hf. by apply list_elem_of_fmap_2.
  - by apply IH.
Qed.

Lemma includes_elem_of processed x : includes processed x = true <-> x ∈ processed.
Proof.
  unfold includes. rewrite existsb_exists. split.
  - intros (y & Hy%list_elem_of_In & ->%String.eqb_eq). done.
  - intros Hx. exists x. split; [by apply list_elem_of_In|apply String.eqb_refl].
Qed.

Lemma afterAttempt_id a : id (afterAttempt a) = id a.1.
Proof. destruct a as [item []]; done. Qed.

Section ReplayLoop.

Context {Backend : Type}.
Variable executeOfflineAction : QueueItem -> Backend -> Outcome unit * Backend.

Abbreviation replay := (replayLoop executeOfflineAction).

Lemma replayLoop_attempts items (b : Backend) :
  (loop_attempts (replay items b)).*1 = items.
Proof.
  revert b. induction items as [|item items IH]; intros b; simpl; [done|].
  destruct (executeOfflineAction item b) as [[[]|e] b1]; simpl; by rewrite IH.
Qed.

Lemma replayLoop_items items (b : Backend) :
  loop_items (replay items b) = afterAttempt <$> loop_attempts (replay items b).
Proof.
  revert b. induction items as [|item items IH]; intros b; simpl; [done|].
  destruct (executeOfflineAction item b) as [[[]|e] b1]; simpl; by rewrite IH.
Qed.

Lemma replayLoop_processed items (b : Backend) :
  loop_processed (replay items b)
  = (fun a => id a.1) <$> List.filter dropped (loop_attempts (replay items b)).
Proof.
  revert b. induction items as [|item items IH]; intros b; simpl; [done|].
  destruct (executeOfflineAction item b) as [[[]|e] b1]; simpl.
  - by rewrite IH.
  - rewrite IH. unfold dropped at 2. simpl.
    by destruct (maxRetriesReached (bumpRetry item)).
Qed.

(** The loop is sequential: the attempts on a later part of the queue
    start from the backend the earlier part has left. *)
Lemma replayLoop_app q1 q2 (b : Backend) :
  loop_attempts (replay (q1 ++ q2) b)
  = loop_attempts (replay q1 b)
    ++ loop_attempts (replay q2 (loop_backend (replay q1 b))).
Proof.
  revert b. induction q1 as [|item q1 IH]; intros b; simpl; [done|].
  destruct (executeOfflineAction item b) as [[[]|e] b1]; simpl; by rewrite IH.
Qed.

(** With distinct ids, [processedItems] holds the id of an attempted item
    exactly when that item was dropped. *)
Lemma processed_iff_dropped items (b : Backend) a :
  NoDup (id <$> items) -> a ∈ loop_attempts (replay items b) ->
  includes (loop_processed (replay items b)) (id a.1) = dropped a.
Proof.
  intros Hnd Ha. rewrite replayLoop_processed.
  destruct (dropped a) eqn:Hd.
  - apply includes_elem_of.
    apply (list_elem_of_fmap_2 (fun a => id a.1)).
    apply list_elem_of_In, filter_In. by split; [apply list_elem_of_In|].
  - apply not_true_is_false. rewrite includes_elem_of.
    intros (a' & Hid & [Ha' Hd']%list_elem_of_In%filter_In)%list_elem_of_fmap.
    apply list_elem_of_In in Ha'.
    assert (a.1 = a'.1) as Hitem.
    { apply (NoDup_fmap_eq id items); [done| | |done];
        rewrite <- (replayLoop_attempts items b); by apply list_elem_of_fmap_2. }
    assert (a = a') as ->; [|congruence].
    assert (NoDup ((loop_attempts (replay items b)).*1)) as Hnd'.
    { rewrite replayLoop_attempts. by eapply NoDup_fmap_1. }
    by apply (NoDup_fmap_eq fst (loop_attempts (replay items b))).
Qed.

Lemma filter_fmap_in {A B} (f : A -> B) (p : B -> bool) (q : A -> bool) (l : list A) :
  (forall x, x ∈ l -> p (f x) = q x) ->
  List.filter p (f <$> l) = f <$> List.filter q l.
Proof.
  induction l as [|x l IH]; [done|]. intros H.
  rewrite fmap_cons. cbn [List.filter].
  rewrite (H x) by left. rewrite IH by (intros y Hy; apply H; by right).
  by destruct (q x).
Qed.

(** The queue a pass leaves, with distinct ids: the attempted items that
    were not dropped, as the loop left them, in the order of the queue. *)
Lemma processOfflineQueue_survivors (w : World) :
  NoDup (id <$> offlineQueue w) ->
  offlineQueue (processOfflineQueue executeOfflineAction w)
  = afterAttempt <$> List.filter (fun a => negb (dropped a))
                       (loop_attempts (replay (offlineQueue w) (backend w))).
Proof.
  intros Hnd. unfold processOfflineQueue.
  destruct (offlineQueue w) as [|item q] eqn:Hq; [done|].
  cbn [length Nat.eqb offlineQueue]. rewrite replayLoop_items.
  apply filter_fmap_in. intros a Ha.
  by rewrite afterAttempt_id, processed_iff_dropped.
Qed.

Lemma processOfflineQueue_executed (w : World) :
  executed (processOfflineQueue executeOfflineAction w)
  = executed w ++ offlineQueue w.
Proof.
  unfold processOfflineQueue. destruct (offlineQueue w) as [|item q] eqn:Hq.
  - simpl. by rewrite app_nil_r.
  - cbn [length Nat.eqb executed]. by rewrite replayLoop_attempts.
Qed.



Lemma processOfflineQueue_ids_sublist (w : World) :
  (id <$> offlineQueue (processOfflineQueue executeOfflineAction w))
    `sublist_of` (id <$> offlineQueue w).
Proof.
  unfold processOfflineQueue. destruct (offlineQueue w) as [|item q] eqn:Hq.
  { simpl. by rewrite Hq. }
  cbn [length Nat.eqb offlineQueue].
  etrans; [apply fmap_sublist, filter_sublist|].
  rewrite replayLoop_items, <- list_fmap_compose.
  rewrite (list_fmap_ext (id ∘ afterAttempt) (id ∘ fst) _
             (fun _ a _ => afterAttempt_id a)).
  by rewrite list_fmap_compose, replayLoop_attempts.
Qed.

End ReplayLoop.

(** ** The NetInfo listener *)

Section Listener.

Context {Backend : Type}.
Variable executeOfflineAction : QueueItem -> Backend -> Outcome unit * Backend.

Abbreviation onChange := (onNetInfoChange executeOfflineAction).
Abbreviation process := (processOfflineQueue executeOfflineAction).
Abbreviation session := (runSession executeOfflineAction).

Lemma addToOfflineQueue_networkState a d e_mem e_sto (w : World (Backend := Backend)) :
  networkState (addToOfflineQueue a d e_mem e_sto w) = networkState w.
Proof. done. Qed.







(** C6.  [addToOfflineQueue] puts the new item at the end of the queue.
    A pass attempts the items of the queue once each, in queue order, a
    later attempt starting from the backend the earlier ones left; the ids
    left in the queue are a sub-list of the ids before the pass; and, the
    ids being distinct, the queue after the pass consists of the items
    whose attempt failed below the retry limit, in their order. *)
Theorem replay_fifo a d e_mem e_sto (w : World) :
  let attempts :=
    loop_attempts (replayLoop executeOfflineAction (offlineQueue w) (backend w)) in
  offlineQueue (addToOfflineQueue a d e_mem e_sto w)
  = offlineQueue w
    ++ [{| id := mkId e_mem; action := a; data := d;
           timestamp := stamp_now e_mem; retryCount := Some 0 |}]
  /\ attempts.*1 = offlineQueue w
  /\ executed (process w) = executed w ++ offlineQueue w
  /\ (forall q1 q2 (b : Backend),
         loop_attempts (replayLoop executeOfflineAction (q1 ++ q2) b)
         = loop_attempts (replayLoop executeOfflineAction q1 b)
           ++ loop_attempts
                (replayLoop executeOfflineAction q2
                   (loop_backend (replayLoop executeOfflineAction q1 b))))
  /\ ((id <$> offlineQueue (process w)) `sublist_of` (id <$> offlineQueue w))
  /\ (NoDup (id <$> offlineQueue w) ->
      offlineQueue (process w)
      = afterAttempt <$> List.filter (fun a => negb (dropped a)) attempts).
Proof.
  intros attempts. split; [done|].
  split; [apply replayLoop_attempts|].
  split; [apply processOfflineQueue_executed|].
  split; [apply replayLoop_app|].
  split; [apply processOfflineQueue_ids_sublist|].
  apply processOfflineQueue_survivors.
Qed.

End Listener.

(** ** Retries *)







Section Retries.

Context {Backend : Type}.
Variable executeOfflineAction : QueueItem -> Backend -> Outcome unit * Backend.

Abbreviation pass := (processOfflineQueue executeOfflineAction).
Abbreviation attemptsOf w :=
  (loop_attempts (replayLoop executeOfflineAction (offlineQueue w) (backend w))).







End Retries.

(** ** The properties at concrete worlds *)

Lemma twoQueued_ids : NoDup (id <$> offlineQueue twoQueued).
Proof. apply (bool_decide_unpack _). vm_compute. exact I. Defined.


(** The bound is reached: the three attempts all happen. *)
Example flappingSession_three_attempts :
  executions (mkId entropyA)
    (runSession failingFirst flappingSession (freshWorld 5%nat)) = 3%nat
  /\ offlineQueue (runSession failingFirst flappingSession (freshWorld 5%nat)) = [].
Proof. vm_compute. done. Qed.


Lemma replay_fifo_witness :
  offlineQueue (processOfflineQueue failingFirst twoQueued) = [bumpRetry itemA].
Proof.
  pose proof (replay_fifo failingFirst "like" VNull entropyA entropyB twoQueued)
    as (_ & _ & _ & _ & _ & Hsurvivors).
  rewrite (Hsurvivors twoQueued_ids). reflexivity.
Defined.


(** ** The persisted queue *)

Lemma getItem_stored key v (s : Storage) : s !! key = Some v -> getItem key s = v.
Proof. intros Hs. unfold getItem. by rewrite Hs. Qed.

(** Removing by an id leaves every persisted item that carries another id. *)
Lemma removeFromOfflineQueue_keeps_other_ids itemId item queue (s : Storage) :
  s !! "offline_queue" = Some (VArr queue) ->
  forallb json_data queue = true ->
  existsb is_nullish queue = false ->
  item ∈ queue ->
  strict_eq (getProp item "id") (VStr itemId) = false ->
  exists queue',
    getItem "offline_queue" (StorageManager.removeFromOfflineQueue itemId s) = VArr queue'
    /\ item ∈ queue'.
Proof.
  intros Hs Hjson Hnull Hin Hid.
  unfold StorageManager.removeFromOfflineQueue, js_or. rewrite (getItem_stored _ _ _ Hs).
  cbn [truthy]. rewrite Hnull.
  rewrite setItem_json_data by (simpl; by apply filter_forallb).
  rewrite getItem_insert. eexists. split; [done|].
  apply list_elem_of_In, filter_In. split; [by apply list_elem_of_In|].
  by rewrite Hid.
Qed.

(** C5.  An action queued through [NetworkManager.addToOfflineQueue] gets
    one id in memory and another in storage.  When the connection returns
    it is executed and leaves the in-memory queue, but the removal from
    storage, made with the in-memory id, leaves the persisted item where
    it is; the next initialization loads it, and the next reconnect
    executes the action a second time.  Only then, the loaded item
    carrying the persisted id, is the persisted queue emptied. *)
Theorem replayed_action_still_persisted :
  mkId entropyA <> mkId entropyB
  /\ id <$> offlineQueue queuedOffline = [mkId entropyA]
  /\ getOfflineQueue (storage queuedOffline) = VArr [persistedB]
  /\ executed afterReconnect = [itemA]
  /\ offlineQueue afterReconnect = []
  /\ getOfflineQueue (storage afterReconnect) = VArr [persistedB]
  /\ (exists restarted,
         initialize (storage afterReconnect) tt = Some restarted
         /\ id <$> offlineQueue restarted = [mkId entropyB]
         /\ action <$> offlineQueue restarted = ["send_message"]
         /\ action <$> executed
                         (onNetInfoChange executeOfflineAction_logging netOnline
                                          restarted)
            = ["send_message"]
         /\ getOfflineQueue
              (storage (onNetInfoChange executeOfflineAction_logging netOnline
                                        restarted))
            = VArr []).
Proof.
  split; [by vm_compute|].
  repeat (split; [by vm_compute|]).
  eexists. split; [by vm_compute|]. by vm_compute.
Qed.

(** The retry count is a field of the in-memory object only: an item that
    has failed twice is still persisted without a count, and a manager
    initialized from that storage starts it again without one. *)
Example retry_count_not_persisted :
  exists w0,
    initialize persistedOnly 2%nat = Some w0
    /\ retryCount <$> offlineQueue w0 = [None]
    /\ retryCount
         <$> offlineQueue
               (runSession failingFirst
                  [NetChange netOnline; NetChange netOffline; NetChange netOnline] w0)
       = [Some 2]
    /\ (offlineQueue
          <$> initialize
                (storage
                   (runSession failingFirst
                      [NetChange netOnline; NetChange netOffline; NetChange netOnline]
                      w0)) 2%nat)
       = Some (offlineQueue w0).
Proof. eexists. split; [by vm_compute|]. by vm_compute. Qed.

(** ** makeRequest *)

Lemma setCache_returns key data minutes stamp now (s : Storage) :
  exists entry,
    setCache key data minutes stamp now s = (Returns tt, <[cacheKeyOf key := entry]> s).
Proof. unfold setCache. rewrite setItem_returns by done. by eexists. Qed.

Lemma givenKey_nonempty k : k <> "" -> givenKey (Some k) = Some k.
Proof. intros Hk. unfold givenKey. simpl. by apply String.eqb_neq in Hk as ->. Qed.

(** C9, as the claim states it, at a cached value that is falsy: the
    manager is offline and the cache holds the unexpired value [0] for the
    key; the claim has [makeRequest] return it.  The code returns the
    fallback instead, throws when there is no fallback, and, online with
    a failing request, rethrows the request's error. *)
Lemma makeRequest_ignores_falsy_cache :
  isOffline cachedZero = true
  /\ getCache "unread" 2000 (storage cachedZero) = (VNum 0, storage cachedZero)
  /\ res_outcome (makeRequest requestUnread (VNum 7) (Some "unread") soonAfter cachedZero)
     = Returns (VNum 7)
  /\ res_outcome (makeRequest requestUnread VUndef (Some "unread") soonAfter cachedZero)
     = Throws noConnectionError
  /\ res_outcome
       (makeRequest requestTimeout VUndef (Some "unread") soonAfter
          (onNetInfoChange executeOfflineAction_logging netOnline cachedZero))
     = Throws (Error "timeout").
Proof. by vm_compute. Qed.

Section MakeRequest.

Context {Backend : Type}.
Variable requestFn : Backend -> Outcome JsVal * Backend.

Lemma makeRequest_offline fallbackData k t (w : World (Backend := Backend)) :
  k <> "" -> isOffline w = true ->
  makeRequest requestFn fallbackData (Some k) t w
  = let '(cachedData, s1) := getCache k (t_offline_lookup t) (storage w) in
    if truthy cachedData
    then {| res_outcome := Returns cachedData; res_world := set_storage s1 w;
            res_called := false |}
    else fallbackOrThrow fallbackData (set_storage s1 w).
Proof.
  intros Hk Hoff. unfold makeRequest. by rewrite Hoff, (givenKey_nonempty k Hk).
Qed.

Lemma makeRequest_online fallbackData k t (w : World (Backend := Backend)) :
  k <> "" -> isOffline w = false ->
  makeRequest requestFn fallbackData (Some k) t w
  = match requestFn (backend w) with
    | (Returns result, b1) =>
        match setCache k result (Some 30) (t_stamp t) (t_expiry t) (storage w) with
        | (Returns _, s1) =>
            {| res_outcome := Returns result;
               res_world := set_storage s1 (set_backend b1 w);
               res_called := true |}
        | (Throws error, s1) =>
            requestFailed error (Some k) (t_failure_lookup t)
                          (set_storage s1 (set_backend b1 w))
        end
    | (Throws error, b1) =>
        requestFailed error (Some k) (t_failure_lookup t) (set_backend b1 w)
    end.
Proof.
  intros Hk Hoff. unfold makeRequest. by rewrite Hoff, (givenKey_nonempty k Hk).
Qed.

(** C9 (amended).  With a non-empty cache key, the cached value being what
    [getCache] gives for it at that moment: offline, [makeRequest] returns
    the cached value if it is truthy, otherwise the fallback if one was
    given, otherwise throws "No internet connection and no cached data
    available", in each case without calling [requestFn]; online, it calls
    [requestFn], stores a successful result under the key with an expiry 30
    minutes ahead and returns it, and on failure returns the cached value
    if it is truthy and otherwise rethrows the request's error. *)
Theorem makeRequest_paths fallbackData k t (w : World (Backend := Backend)) :
  k <> "" ->
  let r := makeRequest requestFn fallbackData (Some k) t w in
  (isOffline w = true ->
   let cached := (getCache k (t_offline_lookup t) (storage w)).1 in
   res_called r = false
   /\ backend (res_world r) = backend w
   /\ (truthy cached = true -> res_outcome r = Returns cached)
   /\ (truthy cached = false -> fallbackData <> VUndef ->
       res_outcome r = Returns fallbackData)
   /\ (truthy cached = false -> fallbackData = VUndef ->
       res_outcome r = Throws noConnectionError))
  /\ (isOffline w = false ->
      res_called r = true
      /\ (forall result b1,
             requestFn (backend w) = (Returns result, b1) ->
             res_outcome r = Returns result
             /\ storage (res_world r)
                = (setCache k result (Some 30) (t_stamp t) (t_expiry t) (storage w)).2
             /\ (json_data result = true ->
                 storage (res_world r) !! cacheKeyOf k
                 = Some (cacheEntry result (t_stamp t)
                           (Some (t_expiry t + 30 * 60 * 1000)))))
      /\ (forall error b1,
             requestFn (backend w) = (Throws error, b1) ->
             let cached := (getCache k (t_failure_lookup t) (storage w)).1 in
             (truthy cached = true -> res_outcome r = Returns cached)
             /\ (truthy cached = false -> res_outcome r = Throws error))).
Proof.
  intros Hk r. split; intros Hoff.
  - intros cached. unfold r, cached. rewrite makeRequest_offline by done.
    destruct (getCache k (t_offline_lookup t) (storage w)) as [c s1].
    cbn [fst]. destruct (truthy c) eqn:Hc.
    + by repeat split.
    + destruct fallbackData; repeat split; try done; by intros _ [].
  - unfold r. rewrite makeRequest_online by done.
    destruct (requestFn (backend w)) as [[result|error] b1] eqn:Hreq.
    + destruct (setCache_returns k result (Some 30) (t_stamp t) (t_expiry t)
                  (storage w)) as [entry Hset].
      rewrite Hset. cbn [res_called res_outcome res_world].
      split; [done|]. split; [|by intros ? ? [=]].
      intros ? ? [= <- <-]. split; [done|]. cbn [storage set_storage].
      split; [by rewrite Hset|].
      intros Hd. rewrite setCache_supplied in Hset by done.
      injection Hset as <-. by rewrite lookup_insert_eq.
    + unfold requestFailed. rewrite (givenKey_nonempty k Hk).
      cbn [storage set_backend].
      destruct (getCache k (t_failure_lookup t) (storage w)) as [c s1] eqn:Hget.
      destruct (truthy c) eqn:Hc; cbn [res_called res_outcome];
        (split; [done|]); (split; [by intros ? ? [=]|]);
        intros ? ? [= <- <-]; cbn [fst]; by rewrite Hc.
Qed.

End MakeRequest.

Lemma makeRequest_paths_witness :
  res_outcome (makeRequest requestUnread (VNum 7) (Some "unread") soonAfter cachedZero)
  = Returns (VNum 7)
  /\ res_called (makeRequest requestUnread (VNum 7) (Some "unread") soonAfter cachedZero)
     = false.
Proof.
  destruct (makeRequest_paths requestUnread (VNum 7) "unread" soonAfter cachedZero)
    as [Hoffline _]; [discriminate|].
  destruct Hoffline as (Hcalled & _ & _ & Hfallback & _); [reflexivity|].
  split; [|exact Hcalled].
  apply Hfallback; [reflexivity|discriminate].
Defined.

(** * Further properties *)

(** ** Every stored value is JSON *)

Lemma jsonify_is_data v : v <> VUndef -> json_data (jsonify v) = true.
Proof.
  induction v as [| | | | |elems IH|fields IH] using JsVal_ind; try done.
  - intros _. simpl. induction IH as [|x l Hx _ IHl]; [done|].
    simpl. rewrite IHl, andb_true_r. destruct x; try done; by apply Hx.
  - intros _. simpl. induction IH as [|[k x] l Hx _ IHl]; [done|].
    simpl. rewrite forallb_app, IHl, andb_true_r.
    destruct x; try done; simpl in *; rewrite andb_true_r; by apply Hx.
Qed.

Lemma JsVal_undef_dec v : {v = VUndef} + {v <> VUndef}.
Proof. destruct v; (by left) || (by right). Qed.

Lemma json_store_insert key v (s : Storage) :
  json_store s -> json_data v = true -> json_store (<[key := v]> s).
Proof.
  intros Hs Hv k x. destruct (decide (key = k)) as [->|Hne].
  - rewrite lookup_insert_eq. by intros [= <-].
  - rewrite lookup_insert_ne by done. apply Hs.
Qed.

Lemma json_store_delete key (s : Storage) : json_store s -> json_store (delete key s).
Proof. intros Hs k x Hk. apply lookup_delete_Some in Hk as [_ Hk]. by eapply Hs. Qed.

Lemma json_store_empty : json_store ∅.
Proof. intros k x. by rewrite lookup_empty. Qed.

Lemma json_store_setItem key v (s : Storage) :
  json_store s -> json_store (setItem key v s).2.
Proof.
  intros Hs. destruct (JsVal_undef_dec v) as [->|Hv]; [done|].
  rewrite setItem_returns by done. cbn [snd].
  apply json_store_insert; [done|by apply jsonify_is_data].
Qed.

Lemma setItem_caught key v (s : Storage) :
  match setItem key v s with (Returns _, s') => s' | (Throws _, _) => s end
  = (setItem key v s).2.
Proof. unfold setItem. by destruct (JSON_stringify v). Qed.

Lemma json_store_multiRemove keys (s : Storage) :
  json_store s -> json_store (multiRemove keys s).
Proof.
  revert s. induction keys as [|k keys IH]; intros s Hs; [done|].
  apply IH. by apply json_store_delete.
Qed.

Lemma json_store_runCall c (s : Storage) : json_store s -> json_store (runCall s c).
Proof.
  intros Hs. destruct c; cbn [runCall].
  - by apply json_store_setItem.
  - by apply json_store_delete.
  - apply json_store_empty.
  - unfold setCache. by apply json_store_setItem.
  - unfold getCache. destruct (negb _); [done|].
    destruct (_ && _); [by apply json_store_delete|done].
  - by apply json_store_multiRemove.
  - unfold setUserPreference. by apply json_store_setItem.
  - unfold saveDraft. by apply json_store_setItem.
  - by apply json_store_delete.
  - unfold StorageManager.addToOfflineQueue.
    destruct (js_or _ _); try done. rewrite setItem_caught. by apply json_store_setItem.
  - unfold StorageManager.removeFromOfflineQueue.
    destruct (js_or _ _); try done. destruct (existsb _ _); [done|].
    rewrite setItem_caught. by apply json_store_setItem.
  - by apply json_store_delete.
  - unfold addRecentSearch.
    destruct (js_or _ _); try done. rewrite setItem_caught. by apply json_store_setItem.
  - by apply json_store_delete.
Qed.

(** Whatever calls the storage manager has served since the storage was
    empty, no stored value contains [undefined]. *)
Theorem storage_stays_json calls : json_store (runCalls calls ∅).
Proof.
  unfold runCalls. generalize json_store_empty. generalize (∅ : Storage).
  induction calls as [|c calls IH]; intros s Hs; [done|].
  simpl. apply IH. by apply json_store_runCall.
Qed.

(** ** clearCache *)

Lemma prefix_nil s : String.prefix "" s = true.
Proof. by destruct s. Qed.

Lemma startsWith_app p x : startsWith p (p +:+ x) = true.
Proof.
  unfold startsWith. induction p as [|a p IH]; simpl; [apply prefix_nil|].
  by destruct (Ascii.ascii_dec a a).
Qed.

Lemma elem_of_getAllKeys (s : Storage) key : key ∈ getAllKeys s <-> is_Some (s !! key).
Proof.
  unfold getAllKeys. rewrite list_elem_of_fmap. split.
  - intros ([k v] & -> & Hkv%elem_of_map_to_list). by exists v.
  - intros [v Hv]. exists (key, v). split; [done|by apply elem_of_map_to_list].
Qed.

Lemma lookup_multiRemove keys (s : Storage) key :
  multiRemove keys s !! key = if decide (key ∈ keys) then None else s !! key.
Proof.
  revert s. induction keys as [|k keys IH]; intros s.
  - simpl. destruct (decide (key ∈ [])) as [H|]; [by apply elem_of_nil in H|done].
  - unfold multiRemove in *. simpl. rewrite IH.
    destruct (decide (key ∈ keys)) as [Hin|Hout].
    + by rewrite decide_True by by right.
    + destruct (decide (key = k)) as [->|Hne].
      * rewrite decide_True by by left. apply lookup_delete_eq.
      * rewrite decide_False by (by intros [?|?]%elem_of_cons).
        by apply lookup_delete_ne.
Qed.

Lemma lookup_clearCache (s : Storage) key :
  clearCache s !! key = if startsWith "cache_" key then None else s !! key.
Proof.
  unfold clearCache. rewrite lookup_multiRemove.
  destruct (startsWith "cache_" key) eqn:Hp.
  - destruct (s !! key) as [v|] eqn:Hs; [|by case_decide].
    rewrite decide_True; [done|].
    apply list_elem_of_In, filter_In. split; [|done].
    apply list_elem_of_In, elem_of_getAllKeys. by exists v.
  - rewrite decide_False; [done|].
    intros [_ Hp']%list_elem_of_In%filter_In. by rewrite Hp in Hp'.
Qed.

Lemma getItem_ext (s s' : Storage) key : s' !! key = s !! key -> getItem key s' = getItem key s.
Proof. intros H. unfold getItem. by rewrite H. Qed.

(** X1.  [clearCache] removes every entry under a key that starts with
    [cache_], expired or not, so that [getCache] of any key gives [null]
    afterwards; every other key keeps its value, and with it the
    preferences, the persisted queue, the recent searches and the drafts. *)
Theorem clearCache_removes_cache_only (s : Storage) :
  (forall key now, getCache key now (clearCache s) = (VNull, clearCache s))
  /\ (forall key, startsWith "cache_" key = false -> clearCache s !! key = s !! key)
  /\ (forall key defaultValue,
         getUserPreference key defaultValue (clearCache s)
         = getUserPreference key defaultValue s)
  /\ getOfflineQueue (clearCache s) = getOfflineQueue s
  /\ (forall t, getRecentSearches t (clearCache s) = getRecentSearches t s)
  /\ (forall t now, getItem (draftKeyOf t now) (clearCache s)
                    = getItem (draftKeyOf t now) s).
Proof.
  split; [|split; [|split; [|split; [|split]]]].
  - intros key now. apply getCache_absent. rewrite lookup_clearCache.
    unfold cacheKeyOf. by rewrite startsWith_app.
  - intros key Hp. by rewrite lookup_clearCache, Hp.
  - intros key d. unfold getUserPreference.
    by rewrite (getItem_ext s (clearCache s)) by by rewrite lookup_clearCache.
  - unfold getOfflineQueue.
    by rewrite (getItem_ext s (clearCache s)) by by rewrite lookup_clearCache.
  - intros t. unfold getRecentSearches.
    by rewrite (getItem_ext s (clearCache s)) by by rewrite lookup_clearCache.
  - intros t now. apply getItem_ext. rewrite lookup_clearCache. by destruct t.
Qed.

Lemma clearCache_removes_cache_only_witness :
  let s : Storage :=
    {[ "cache_feed" := cacheEntry (VStr "post") 1000 (Some 1801000);
       "pref_theme" := VStr "dark" ]} in
  clearCache s !! "pref_theme" = s !! "pref_theme".
Proof.
  intros s.
  apply (proj1 (proj2 (clearCache_removes_cache_only s)) "pref_theme").
  reflexivity.
Defined.

(** ** Cache keys do not interfere *)

Lemma cacheKeyOf_inj k k' : cacheKeyOf k = cacheKeyOf k' -> k = k'.
Proof. unfold cacheKeyOf. apply (inj (String.append "cache_")). Qed.

Lemma getCache_frame key now (s : Storage) key' :
  key' <> cacheKeyOf key -> (getCache key now s).2 !! key' = s !! key'.
Proof.
  intros Hne. unfold getCache. destruct (negb _); [done|].
  destruct (_ && _); [|done]. unfold removeItem. simpl. by apply lookup_delete_ne.
Qed.

Lemma getCache_value_ext key now (s s' : Storage) :
  s' !! cacheKeyOf key = s !! cacheKeyOf key ->
  (getCache key now s').1 = (getCache key now s).1.
Proof.
  intros H. unfold getCache. rewrite (getItem_ext s s') by done.
  destruct (negb _); [done|]. by destruct (_ && _).
Qed.

Lemma setItem_frame key v (s : Storage) key' :
  key' <> key -> (setItem key v s).2 !! key' = s !! key'.
Proof.
  intros Hne. unfold setItem. destruct (JSON_stringify v); [|done].
  simpl. by apply lookup_insert_ne.
Qed.

(** X2.  Writing or reading the cache under one key leaves what [getCache]
    gives for every other key as it was; [getCache] changes the storage at
    most at the entry of its own key. *)
Theorem cache_keys_independent key key' now (s : Storage) :
  key <> key' ->
  (forall data minutes now_stamp now_expiry,
      (getCache key' now (setCache key data minutes now_stamp now_expiry s).2).1
      = (getCache key' now s).1)
  /\ (forall now', (getCache key' now (getCache key now' s).2).1 = (getCache key' now s).1)
  /\ (forall k, k <> cacheKeyOf key -> (getCache key now s).2 !! k = s !! k).
Proof.
  intros Hne.
  assert (cacheKeyOf key' <> cacheKeyOf key) as Hk by (by intros ?%cacheKeyOf_inj).
  split; [|split].
  - intros. apply getCache_value_ext. unfold setCache. by apply setItem_frame.
  - intros. apply getCache_value_ext. by apply getCache_frame.
  - intros k Hkne. by apply getCache_frame.
Qed.

Lemma cache_keys_independent_witness :
  (getCache "feed" 5000 (setCache "profile" (VStr "ada") (Some 1) 1000 1000
                           (setCache "feed" (VStr "post") (Some 30) 1000 1000 ∅).2).2).1
  = (getCache "feed" 5000 (setCache "feed" (VStr "post") (Some 30) 1000 1000 ∅).2).1.
Proof.
  apply (proj1 (cache_keys_independent "profile" "feed" 5000 _ ltac:(discriminate))).
Defined.

(** ** User preferences *)

Lemma strict_eq_VNull v : strict_eq v VNull = true <-> v = VNull.
Proof. destruct v; simpl; split; by try intros [=]. Qed.

(** X3.  A stored preference other than [null] is returned as it is, whatever
    the default, also when it is [false], [0] or the empty string; when
    nothing (or [null]) is stored the default is returned if it is truthy,
    and [null] otherwise, so that a default [false], [0] or [""] is lost. *)
Theorem getUserPreference_default key defaultValue (s : Storage) :
  (forall value,
      json_data value = true -> value <> VNull ->
      exists s1,
        setUserPreference key value s = (Returns tt, s1)
        /\ getUserPreference key defaultValue s1 = value)
  /\ (getItem (prefKeyOf key) s = VNull ->
      getUserPreference key defaultValue s
      = if truthy defaultValue then defaultValue else VNull).
Proof.
  split.
  - intros value Hd Hnn. eexists. split; [by apply setItem_json_data|].
    unfold getUserPreference. rewrite getItem_insert.
    destruct (strict_eq value VNull) eqn:E; [by apply strict_eq_VNull in E|done].
  - intros Hs. unfold getUserPreference. by rewrite Hs.
Qed.

Lemma getUserPreference_default_witness :
  (exists s1,
      setUserPreference "notifications" (VBool false) ∅ = (Returns tt, s1)
      /\ getUserPreference "notifications" (VBool true) s1 = VBool false)
  /\ getUserPreference "notifications" (VBool false) ∅ = VNull.
Proof.
  split.
  - apply (proj1 (getUserPreference_default "notifications" (VBool true) ∅));
      [reflexivity|discriminate].
  - apply (proj2 (getUserPreference_default "notifications" (VBool false) ∅)).
    reflexivity.
Defined.

(** ** Drafts *)

Lemma assoc_setField p k v fields :
  assoc p (setField k v fields) = if String.eqb p k then v else assoc p fields.
Proof.
  induction fields as [|[k' x] fields IH]; [done|]. simpl.
  destruct (String.eqb k k') eqn:Ek; simpl.
  - apply String.eqb_eq in Ek as <-. by destruct (String.eqb p k).
  - rewrite IH. destruct (String.eqb p k') eqn:Ep; [|done].
    apply String.eqb_eq in Ep as ->.
    by rewrite String.eqb_sym, Ek.
Qed.

Lemma setField_keys k v fields :
  (setField k v fields).*1
  = if decide (k ∈ fields.*1) then fields.*1 else fields.*1 ++ [k].
Proof.
  induction fields as [|[k' x] fields IH]; [done|]. cbn [setField].
  destruct (String.eqb k k') eqn:Ek.
  - apply String.eqb_eq in Ek as <-. rewrite !fmap_cons. cbn [fst].
    by rewrite decide_True by by left.
  - apply String.eqb_neq in Ek. rewrite !fmap_cons, IH. cbn [fst].
    destruct (decide (k ∈ fields.*1)) as [Hin|Hout].
    + by rewrite decide_True by by right.
    + by rewrite decide_False by (by intros [?|?]%elem_of_cons).
Qed.

Lemma elem_of_setField_keys p k v fields :
  p ∈ (setField k v fields).*1 <-> p = k \/ p ∈ fields.*1.
Proof.
  rewrite setField_keys. case_decide as Hk.
  - split; [by right|]. by intros [->|?].
  - rewrite elem_of_app, list_elem_of_singleton. tauto.
Qed.

Lemma setField_NoDup k v fields : NoDup fields.*1 -> NoDup (setField k v fields).*1.
Proof.
  intros Hnd. rewrite setField_keys. case_decide; [done|].
  apply NoDup_app. split; [done|]. split; [|apply NoDup_singleton].
  by intros x Hx ->%list_elem_of_singleton.
Qed.

Lemma fold_setField_NoDup props acc :
  NoDup acc.*1 ->
  NoDup (fold_left (fun acc kv => setField kv.1 kv.2 acc) props acc).*1.
Proof.
  revert acc. induction props as [|[k v] props IH]; intros acc Hacc; [done|].
  simpl. apply IH. by apply setField_NoDup.
Qed.

Lemma fold_setField_keys fields acc :
  NoDup (acc.*1 ++ fields.*1) ->
  (fold_left (fun acc kv => setField kv.1 kv.2 acc) fields acc).*1
  = acc.*1 ++ fields.*1.
Proof.
  revert acc. induction fields as [|[k v] fields IH]; intros acc Hnd.
  - simpl. by rewrite app_nil_r.
  - rewrite fmap_cons in Hnd. cbn [fst fold_left snd] in *.
    assert (k ∉ acc.*1) as Hk.
    { apply NoDup_app in Hnd as (_ & Hdisj & _). intros Hin.
      apply (Hdisj k Hin). by left. }
    assert ((setField k v acc).*1 = acc.*1 ++ [k]) as Hkeys
      by by rewrite setField_keys, decide_False.
    rewrite IH; rewrite Hkeys, <- app_assoc; [by rewrite fmap_cons|done].
Qed.

Lemma objectOf_keys fields : NoDup fields.*1 -> (objectOf fields).*1 = fields.*1.
Proof. intros Hnd. unfold objectOf. by rewrite fold_setField_keys. Qed.

Lemma objectOf_NoDup props : NoDup (objectOf props).*1.
Proof. apply fold_setField_NoDup. constructor. Qed.

Lemma assoc_absent p fields : p ∉ fields.*1 -> assoc p fields = VUndef.
Proof.
  induction fields as [|[k x] fields IH]; [done|]. simpl.
  intros [Hne Hout]%not_elem_of_cons.
  apply String.eqb_neq in Hne as ->. by apply IH.
Qed.

(** Reading a property of an object built from properties with distinct
    names on top of [acc]. *)
Lemma assoc_fold_setField p props acc :
  NoDup props.*1 ->
  assoc p (fold_left (fun acc kv => setField kv.1 kv.2 acc) props acc)
  = if decide (p ∈ props.*1) then assoc p props else assoc p acc.
Proof.
  revert acc. induction props as [|[k v] props IH]; intros acc; [done|].
  rewrite fmap_cons. intros [Hk Hnd]%NoDup_cons. simpl. rewrite IH by done.
  destruct (String.eqb p k) eqn:Ep.
  - apply String.eqb_eq in Ep as ->.
    rewrite decide_False by done. rewrite decide_True by by left.
    by rewrite assoc_setField, String.eqb_refl.
  - apply String.eqb_neq in Ep.
    destruct (decide (p ∈ props.*1)) as [Hin|Hout].
    + by rewrite decide_True by by right.
    + rewrite decide_False by (by intros [?|?]%elem_of_cons).
      rewrite assoc_setField. by apply String.eqb_neq in Ep as ->.
Qed.

Lemma assoc_objectOf p props : NoDup props.*1 -> assoc p (objectOf props) = assoc p props.
Proof.
  intros Hnd. unfold objectOf. rewrite assoc_fold_setField by done.
  case_decide; [done|]. by rewrite (assoc_absent p props).
Qed.

Lemma setField_json k v fields :
  json_data v = true -> json_data (VObj fields) = true ->
  json_data (VObj (setField k v fields)) = true.
Proof.
  intros Hv. simpl. induction fields as [|[k' x] fields IH]; simpl.
  - by rewrite Hv.
  - intros [Hx Hf]%andb_prop. destruct (String.eqb k k'); simpl.
    + by rewrite Hv, Hf.
    + by rewrite Hx, IH.
Qed.

Lemma fold_setField_json props acc :
  json_data (VObj props) = true -> json_data (VObj acc) = true ->
  json_data (VObj (fold_left (fun acc kv => setField kv.1 kv.2 acc) props acc)) = true.
Proof.
  revert acc. induction props as [|[k v] props IH]; intros acc; [done|].
  intros [Hv Hp]%andb_prop Hacc. simpl. apply IH; [done|]. by apply setField_json.
Qed.

Lemma filter_not_null drafts :
  Forall (fun d => d <> VNull) drafts ->
  List.filter (fun draft => negb (strict_eq draft VNull)) drafts = drafts.
Proof.
  induction 1 as [|d l Hd _ IH]; [done|]. simpl. rewrite IH.
  destruct (strict_eq d VNull) eqn:E; [by apply strict_eq_VNull in E|done].
Qed.

(** The drafts [getDrafts] returns are exactly the ones built from the
    stored keys that start with the prefix of the type. *)
Lemma elem_of_getDrafts t (s : Storage) d :
  d ∈ getDrafts t s
  <-> exists key v,
        s !! key = Some v /\ startsWith (draftPrefix t) key = true
        /\ d = VObj (objectOf (("key", VStr key) :: ownProps v)).
Proof.
  unfold getDrafts. rewrite filter_not_null.
  2:{ apply Forall_forall. by intros x (key & <- & _)%list_elem_of_In%in_map_iff. }
  rewrite list_elem_of_In, in_map_iff. split.
  - intros (key & <- & [Hkey Hp]%filter_In).
    apply list_elem_of_In, elem_of_getAllKeys in Hkey as [v Hv].
    exists key, v. by rewrite (getItem_stored _ _ _ Hv).
  - intros (key & v & Hv & Hp & ->). exists key.
    rewrite (getItem_stored _ _ _ Hv). split; [done|].
    apply filter_In. split; [|done].
    apply list_elem_of_In, elem_of_getAllKeys. by exists v.
Qed.

Lemma saveDraft_stored t fields now_key now_created (s : Storage) :
  json_data (VObj fields) = true ->
  saveDraft t (VObj fields) now_key now_created s
  = (Returns tt,
     <[draftKeyOf t now_key :=
         VObj (objectOf (fields ++ [("createdAt", VNum now_created);
                                    ("type", VStr (draftTypeName t))]))]> s).
Proof.
  intros Hd. unfold saveDraft. apply setItem_json_data.
  apply fold_setField_json; [|done].
  simpl in *. rewrite forallb_app, Hd. done.
Qed.

(** X4.  A draft saved from an object comes back from [getDrafts] of its type
    with [type] and [createdAt] as [saveDraft] set them (whatever the
    object said), with every other property of the object, and with the
    storage key as [key], unless the object has a property [key] of its
    own, which then takes its place. *)
Theorem saveDraft_getDrafts t fields now_key now_created (s : Storage) :
  json_data (VObj fields) = true ->
  NoDup fields.*1 ->
  exists s1 draft,
    saveDraft t (VObj fields) now_key now_created s = (Returns tt, s1)
    /\ draft ∈ getDrafts t s1
    /\ getProp draft "type" = VStr (draftTypeName t)
    /\ getProp draft "createdAt" = VNum now_created
    /\ (forall p, p <> "type" -> p <> "createdAt" -> p <> "key" ->
                  getProp draft p = getProp (VObj fields) p)
    /\ ("key" ∉ fields.*1 -> getProp draft "key" = VStr (draftKeyOf t now_key))
    /\ ("key" ∈ fields.*1 -> getProp draft "key" = getProp (VObj fields) "key").
Proof.
  intros Hd Hnd.
  set (F := objectOf (fields ++ [("createdAt", VNum now_created);
                                 ("type", VStr (draftTypeName t))])).
  set (key := draftKeyOf t now_key).
  exists (<[key := VObj F]> s), (VObj (objectOf (("key", VStr key) :: F))).
  split; [by apply saveDraft_stored|].
  split.
  { apply elem_of_getDrafts. exists key, (VObj F).
    split; [apply lookup_insert_eq|]. split; [apply startsWith_app|done]. }
  assert (forall p, assoc p F
                    = if String.eqb p "type" then VStr (draftTypeName t)
                      else if String.eqb p "createdAt" then VNum now_created
                           else assoc p fields) as HF.
  { intros p. unfold F, objectOf. rewrite fold_left_app. simpl.
    rewrite !assoc_setField. fold (objectOf fields). by rewrite assoc_objectOf. }
  assert (forall p, p ∈ F.*1 <-> p = "type" \/ p = "createdAt" \/ p ∈ fields.*1) as HK.
  { intros p. unfold F, objectOf. rewrite fold_left_app. simpl.
    rewrite !elem_of_setField_keys. fold (objectOf fields).
    rewrite (objectOf_keys fields Hnd). cbn [fst]. tauto. }
  assert (forall p, getProp (VObj (objectOf (("key", VStr key) :: F))) p
                    = if decide (p ∈ F.*1) then assoc p F
                      else if String.eqb p "key" then VStr key else VUndef) as HD.
  { intros p. unfold objectOf. simpl.
    rewrite assoc_fold_setField by apply objectOf_NoDup.
    case_decide; [done|]. simpl. by destruct (String.eqb p "key"). }
  repeat split.
  - rewrite HD, decide_True by (apply HK; by left). by rewrite HF.
  - rewrite HD, decide_True by (apply HK; right; by left). by rewrite HF.
  - intros p Ht Hc Hk. rewrite HD. simpl.
    apply String.eqb_neq in Ht, Hc, Hk. case_decide as Hin.
    + by rewrite HF, Ht, Hc.
    + rewrite Hk. symmetry. apply assoc_absent. intros Hf. apply Hin, HK. auto.
  - intros Hout. rewrite HD. rewrite decide_False; [done|].
    intros [?|[?|?]]%HK; done.
  - intros Hin. rewrite HD. rewrite decide_True by (apply HK; auto).
    by rewrite HF.
Qed.

Lemma saveDraft_getDrafts_witness :
  exists s1 draft,
    saveDraft listing (VObj deckDraft) 1700000000000 1700000000001 ∅ = (Returns tt, s1)
    /\ draft ∈ getDrafts listing s1
    /\ getProp draft "type" = VStr "listing"
    /\ getProp draft "title" = VStr "Mono red"
    /\ getProp draft "key" = VStr "draft_listing_1700000000000".
Proof.
  destruct (saveDraft_getDrafts listing deckDraft 1700000000000 1700000000001 ∅)
    as (s1 & draft & Hsave & Hin & Htype & _ & Hother & Hkey & _).
  - reflexivity.
  - apply (bool_decide_unpack _). vm_compute. exact I.
  - exists s1, draft. split; [exact Hsave|]. split; [exact Hin|].
    split; [exact Htype|]. split.
    + apply (Hother "title"); discriminate.
    + rewrite Hkey; [reflexivity|].
      apply (bool_decide_unpack _). vm_compute. exact I.
Defined.

Lemma saveDraft_returns t data now_key now_created (s : Storage) :
  exists draft,
    saveDraft t data now_key now_created s
    = (Returns tt, <[draftKeyOf t now_key := draft]> s).
Proof. unfold saveDraft. rewrite setItem_returns by done. by eexists. Qed.

Lemma draftKeyOf_inj t now now' : draftKeyOf t now = draftKeyOf t now' -> now = now'.
Proof.
  unfold draftKeyOf. intros H%(inj (String.append (draftPrefix t))).
  by apply (inj pretty) in H.
Qed.

Lemma startsWith_other_type t t' now :
  t <> t' -> startsWith (draftPrefix t') (draftKeyOf t now) = false.
Proof. destruct t, t'; try done; intros _; reflexivity. Qed.

(** X5.  [deleteDraft] takes out the draft stored under its key and no other;
    deleting the key of a draft just saved under a new key gives the
    storage back as it was; and saving a draft of one type changes nothing
    in the drafts of another type. *)
Theorem drafts_by_key t (s : Storage) d :
  (forall draftKey,
      d ∈ getDrafts t (deleteDraft draftKey s)
      <-> exists key v,
            key <> draftKey /\ s !! key = Some v
            /\ startsWith (draftPrefix t) key = true
            /\ d = VObj (objectOf (("key", VStr key) :: ownProps v)))
  /\ (forall data now_key now_created,
         s !! draftKeyOf t now_key = None ->
         deleteDraft (draftKeyOf t now_key) (saveDraft t data now_key now_created s).2
         = s)
  /\ (forall t' data now_key now_created,
         t' <> t ->
         d ∈ getDrafts t (saveDraft t' data now_key now_created s).2
         <-> d ∈ getDrafts t s).
Proof.
  split; [|split].
  - intros draftKey. rewrite elem_of_getDrafts. unfold deleteDraft, removeItem.
    split.
    + intros (key & v & [Hne Hv]%lookup_delete_Some & Hp & ->). by exists key, v.
    + intros (key & v & Hne & Hv & Hp & ->). exists key, v.
      split; [by apply lookup_delete_Some|done].
  - intros data now_key now_created Hnew.
    destruct (saveDraft_returns t data now_key now_created s) as [draft ->].
    unfold deleteDraft, removeItem. simpl. by apply delete_insert_id.
  - intros t' data now_key now_created Hne.
    destruct (saveDraft_returns t' data now_key now_created s) as [draft ->].
    rewrite !elem_of_getDrafts. simpl.
    pose proof (startsWith_other_type t' t now_key Hne) as Hother.
    split; intros (key & v & Hv & Hp & ->); exists key, v.
    + destruct (decide (draftKeyOf t' now_key = key)) as [<-|Hk];
        [by rewrite Hother in Hp|].
      by rewrite lookup_insert_ne in Hv.
    + destruct (decide (draftKeyOf t' now_key = key)) as [<-|Hk];
        [by rewrite Hother in Hp|].
      by rewrite lookup_insert_ne.
Qed.

Lemma drafts_by_key_witness :
  deleteDraft (draftKeyOf post 1700000000000)
    (saveDraft post (VObj deckDraft) 1700000000000 1700000000000
       ({[ "pref_theme" := VStr "dark" ]} : Storage)).2
  = {[ "pref_theme" := VStr "dark" ]}.
Proof.
  apply (proj1 (proj2 (drafts_by_key post {[ "pref_theme" := VStr "dark" ]} VNull))).
  reflexivity.
Defined.

(** X6.  The key of a draft is made of its type and the millisecond it is saved
    in: a second draft of the type saved in the same millisecond replaces
    the first, which is lost; saved in different milliseconds the two are
    stored side by side. *)
Theorem saveDraft_same_millisecond t data1 data2 created1 created2 now (s : Storage) :
  (saveDraft t data2 now created2 (saveDraft t data1 now created1 s).2).2
  = (saveDraft t data2 now created2 s).2
  /\ (forall now',
         now <> now' ->
         let s1 := (saveDraft t data1 now created1 s).2 in
         let s2 := (saveDraft t data2 now' created2 s1).2 in
         s2 !! draftKeyOf t now = s1 !! draftKeyOf t now
         /\ is_Some (s1 !! draftKeyOf t now)
         /\ is_Some (s2 !! draftKeyOf t now')).
Proof.
  split.
  - unfold saveDraft. rewrite !setItem_returns by done. simpl.
    apply insert_insert_eq.
  - intros now' Hne s1 s2. unfold s2, s1.
    destruct (saveDraft_returns t data1 now created1 s) as [d1 ->]. cbn [snd].
    destruct (saveDraft_returns t data2 now' created2 (<[draftKeyOf t now:=d1]> s))
      as [d2 ->]. cbn [snd].
    assert (draftKeyOf t now' <> draftKeyOf t now)
      by (intros ?%draftKeyOf_inj; by apply Hne).
    rewrite lookup_insert_ne by done. rewrite !lookup_insert_eq. eauto.
Qed.

Lemma saveDraft_same_millisecond_witness :
  is_Some ((saveDraft post (VObj deckDraft) 1700000000001 1700000000001
              (saveDraft post VNull 1700000000000 1700000000000 ∅).2).2
           !! draftKeyOf post 1700000000000).
Proof.
  destruct (proj2 (saveDraft_same_millisecond post VNull (VObj deckDraft)
                     1700000000000 1700000000001 1700000000000 ∅)
              1700000000001 ltac:(lia)) as (Hkept & Hfirst & _).
  rewrite Hkept. exact Hfirst.
Defined.

(** ** The persisted queue *)

Abbreviation reads := (Forall2 (fun v item => readItem v = Some item)).

Lemma loadQueue_Some (s : Storage) q :
  loadQueue s = Some q
  <-> exists elems, getOfflineQueue s = VArr elems /\ reads elems q.
Proof.
  unfold loadQueue. split.
  - destruct (getOfflineQueue s) as [| | | | |elems|]; try done.
    intros H%mapM_Some. by exists elems.
  - intros (elems & -> & H). by apply mapM_Some.
Qed.

Lemma readItem_id v item :
  readItem v = Some item -> getProp v "id" = VStr (id item) /\ is_nullish v = false.
Proof.
  unfold readItem. destruct v; try done.
  destruct (getProp _ "id"); try done.
  destruct (getProp _ "action"); try done.
  destruct (getProp _ "timestamp"); try done.
  destruct (getProp _ "retryCount"); try done; by intros [= <-].
Qed.

Lemma reads_not_nullish elems q : reads elems q -> existsb is_nullish elems = false.
Proof.
  induction 1 as [|v item elems q Hv _ IH]; [done|].
  simpl. by rewrite (proj2 (readItem_id _ _ Hv)), IH.
Qed.

Lemma reads_filter i elems q :
  reads elems q ->
  reads (List.filter (fun item => negb (strict_eq (getProp item "id") (VStr i))) elems)
        (List.filter (fun item => negb (String.eqb (id item) i)) q).
Proof.
  induction 1 as [|v item elems q Hv _ IH]; [constructor|].
  simpl. rewrite (proj1 (readItem_id _ _ Hv)). simpl.
  destruct (String.eqb (id item) i); simpl; [done|by constructor].
Qed.

Lemma getOfflineQueue_insert elems (s : Storage) :
  getOfflineQueue (<["offline_queue" := VArr elems]> s) = VArr elems.
Proof. unfold getOfflineQueue. by rewrite getItem_insert. Qed.

Lemma addToOfflineQueue_stored action0 data0 e elems (s : Storage) :
  json_store s -> getOfflineQueue s = VArr elems -> json_data data0 = true ->
  StorageManager.addToOfflineQueue action0 data0 e s
  = <["offline_queue" := VArr (elems ++ [persistedItem action0 data0 e])]> s.
Proof.
  intros Hs Hq Hd. pose proof (stored_array _ _ _ Hs Hq) as Hjson.
  unfold StorageManager.addToOfflineQueue. unfold getOfflineQueue in Hq. rewrite Hq.
  rewrite setItem_json_data; [done|].
  simpl. rewrite forallb_app, Hjson. simpl. by rewrite Hd.
Qed.

Lemma removeFromOfflineQueue_stored i elems q (s : Storage) :
  json_store s -> getOfflineQueue s = VArr elems -> reads elems q ->
  StorageManager.removeFromOfflineQueue i s
  = <["offline_queue" :=
        VArr (List.filter
                (fun item => negb (strict_eq (getProp item "id") (VStr i))) elems)]> s.
Proof.
  intros Hs Hq Hr. pose proof (stored_array _ _ _ Hs Hq) as Hjson.
  unfold StorageManager.removeFromOfflineQueue. unfold getOfflineQueue in Hq.
  rewrite Hq, (reads_not_nullish _ _ Hr).
  rewrite setItem_json_data; [done|]. simpl. by apply filter_forallb.
Qed.

(** X7.  An action persisted by [StorageManager.addToOfflineQueue] is found at
    the end of the queue a later initialization loads, with its action,
    data and timestamp, the id made from the readings, and no retry count;
    the items loaded before it are the ones that were there. *)
Theorem addToOfflineQueue_persists action0 data0 e q (s : Storage) :
  json_store s -> loadQueue s = Some q -> json_data data0 = true ->
  loadQueue (StorageManager.addToOfflineQueue action0 data0 e s)
  = Some (q ++ [loadedItem action0 data0 e]).
Proof.
  intros Hs (elems & Hq & Hr)%loadQueue_Some Hd.
  rewrite (addToOfflineQueue_stored _ _ _ elems) by done.
  apply loadQueue_Some. eexists. split; [apply getOfflineQueue_insert|].
  apply Forall2_app; [done|]. by constructor.
Qed.

Lemma addToOfflineQueue_persists_witness :
  loadQueue (StorageManager.addToOfflineQueue "send_message" messageData entropyB ∅)
  = Some [loadedItem "send_message" messageData entropyB].
Proof.
  apply (addToOfflineQueue_persists "send_message" messageData entropyB [] ∅).
  - apply json_store_empty.
  - reflexivity.
  - reflexivity.
Defined.

Lemma filter_id_absent i (q : list QueueItem) :
  i ∉ id <$> q -> List.filter (fun item => negb (String.eqb (id item) i)) q = q.
Proof.
  induction q as [|x q IH]; [done|]. rewrite fmap_cons.
  intros [Hx Hq]%not_elem_of_cons. simpl.
  apply not_eq_sym, String.eqb_neq in Hx. rewrite Hx. simpl. by rewrite IH.
Qed.

Lemma removeFromOfflineQueue_load i q (s : Storage) :
  json_store s -> loadQueue s = Some q ->
  loadQueue (StorageManager.removeFromOfflineQueue i s)
  = Some (List.filter (fun item => negb (String.eqb (id item) i)) q).
Proof.
  intros Hs (elems & Hq & Hr)%loadQueue_Some.
  rewrite (removeFromOfflineQueue_stored i elems q) by done.
  apply loadQueue_Some. eexists. split; [apply getOfflineQueue_insert|].
  by apply reads_filter.
Qed.

Lemma json_store_removeFromOfflineQueue i (s : Storage) :
  json_store s -> json_store (StorageManager.removeFromOfflineQueue i s).
Proof. apply (json_store_runCall (CallRemoveFromOfflineQueue i)). Qed.

Lemma filter_filter_same {A} (f : A -> bool) (l : list A) :
  List.filter f (List.filter f l) = List.filter f l.
Proof.
  induction l as [|x l IH]; [done|]. simpl.
  destruct (f x) eqn:E; simpl; [by rewrite E, IH|done].
Qed.

(** X8.  [removeFromOfflineQueue] takes out of the persisted queue every item
    with the given id and no other, keeping the order; with an id that no
    item carries the queue stays as it is, and so it does when the call is
    repeated; [clearOfflineQueue] leaves the empty queue. *)
Theorem removeFromOfflineQueue_filters i q (s : Storage) :
  json_store s -> loadQueue s = Some q ->
  loadQueue (StorageManager.removeFromOfflineQueue i s)
  = Some (List.filter (fun item => negb (String.eqb (id item) i)) q)
  /\ (i ∉ id <$> q -> loadQueue (StorageManager.removeFromOfflineQueue i s) = Some q)
  /\ loadQueue (StorageManager.removeFromOfflineQueue i
                  (StorageManager.removeFromOfflineQueue i s))
     = loadQueue (StorageManager.removeFromOfflineQueue i s)
  /\ loadQueue (clearOfflineQueue s) = Some [].
Proof.
  intros Hs Hq. pose proof (removeFromOfflineQueue_load i q s Hs Hq) as Hload.
  split; [done|]. split; [|split].
  - intros Hout. by rewrite Hload, filter_id_absent.
  - rewrite (removeFromOfflineQueue_load i _ _
               (json_store_removeFromOfflineQueue i s Hs) Hload).
    by rewrite Hload, filter_filter_same.
  - unfold loadQueue, getOfflineQueue, clearOfflineQueue, removeItem, getItem.
    by rewrite lookup_delete_eq.
Qed.

Lemma removeFromOfflineQueue_filters_witness :
  loadQueue (StorageManager.removeFromOfflineQueue (mkId entropyB) persistedOnly)
  = Some [].
Proof.
  apply (removeFromOfflineQueue_filters (mkId entropyB)
           [loadedItem "send_message" messageData entropyB] persistedOnly).
  - apply (json_store_runCall (CallAddToOfflineQueue _ _ _)), json_store_empty.
  - reflexivity.
Defined.

(** ** Storage and memory after a replay *)

Lemma loadQueue_fold_remove processed q (s : Storage) :
  json_store s -> loadQueue s = Some q ->
  json_store (fold_left (fun s i => StorageManager.removeFromOfflineQueue i s) processed s)
  /\ loadQueue
       (fold_left (fun s i => StorageManager.removeFromOfflineQueue i s) processed s)
     = Some (List.filter (fun item => negb (includes processed (id item))) q).
Proof.
  revert q s. induction processed as [|i processed IH]; intros q s Hs Hq.
  - split; [done|]. simpl. rewrite Hq. f_equal.
    clear. induction q as [|x q IHq]; [done|]. simpl. by f_equal.
  - simpl.
    destruct (IH _ _ (json_store_removeFromOfflineQueue i s Hs)
                (removeFromOfflineQueue_load i q s Hs Hq)) as [Hjson Hload].
    split; [done|]. rewrite Hload. f_equal.
    clear. induction q as [|x q IHq]; [done|]. simpl.
    destruct (String.eqb (id x) i); simpl; [done|].
    destruct (includes processed (id x)); simpl; [done|by f_equal].
Qed.

Lemma fmap_filter_id (h : string -> bool) (l : list QueueItem) :
  id <$> List.filter (fun item => h (id item)) l = List.filter h (id <$> l).
Proof.
  induction l as [|x l IH]; [done|]. rewrite fmap_cons. simpl.
  destruct (h (id x)); [rewrite fmap_cons|]; by rewrite IH.
Qed.

Lemma removeFromOfflineQueue_frame i (s : Storage) key :
  key <> "offline_queue" ->
  StorageManager.removeFromOfflineQueue i s !! key = s !! key.
Proof.
  intros Hne. unfold StorageManager.removeFromOfflineQueue.
  destruct (js_or _ _); try done. destruct (existsb _ _); [done|].
  rewrite setItem_caught. by apply setItem_frame.
Qed.

Lemma addToOfflineQueue_frame a d e (s : Storage) key :
  key <> "offline_queue" ->
  StorageManager.addToOfflineQueue a d e s !! key = s !! key.
Proof.
  intros Hne. unfold StorageManager.addToOfflineQueue.
  destruct (js_or _ _); try done. rewrite setItem_caught. by apply setItem_frame.
Qed.

Section PersistedQueue.

Context {Backend : Type}.
Variable executeOfflineAction : QueueItem -> Backend -> Outcome unit * Backend.

Abbreviation replayPass := (processOfflineQueue executeOfflineAction).

Lemma loop_items_ids items (b : Backend) :
  id <$> loop_items (replayLoop executeOfflineAction items b) = id <$> items.
Proof.
  rewrite replayLoop_items, <- list_fmap_compose.
  rewrite (list_fmap_ext (id ∘ afterAttempt) (id ∘ fst) _
             (fun _ a _ => afterAttempt_id a)).
  by rewrite list_fmap_compose, replayLoop_attempts.
Qed.

Lemma inStep_pass (w : World) : inStep w -> inStep (replayPass w).
Proof.
  intros (Hs & p & Hp & Hids). unfold processOfflineQueue.
  destruct (length (offlineQueue w) =? 0)%nat; [split; [done|]; by exists p|].
  set (r := replayLoop executeOfflineAction (offlineQueue w) (backend w)).
  destruct (loadQueue_fold_remove (loop_processed r) p (storage w) Hs Hp)
    as [Hjson Hload].
  split; [done|]. eexists. split; [exact Hload|]. cbn [offlineQueue storage].
  rewrite (fmap_filter_id (fun i => negb (includes (loop_processed r) i))).
  rewrite (fmap_filter_id (fun i => negb (includes (loop_processed r) i))).
  rewrite Hids. subst r. by rewrite loop_items_ids.
Qed.

Lemma inStep_step st (w : World) :
  isEnqueue st = false -> inStep w -> inStep (step executeOfflineAction w st).
Proof.
  destruct st as [a d e_mem e_sto|state|f]; [done| |done].
  intros _ Hw. simpl. unfold onNetInfoChange.
  destruct (negb (isConnected (networkState w)) && _); [|done].
  by apply inStep_pass.
Qed.

(** X9.  For a manager whose queue was loaded from storage and that has taken
    no new action since, storage and memory stay in step through every
    reconnect: a new initialization from the storage it leaves loads the
    ids of the items still pending in memory, in the same order. *)
Theorem persisted_queue_in_step (s : Storage) (b b' : Backend) w0 steps :
  json_store s ->
  initialize s b = Some w0 ->
  forallb (fun st => negb (isEnqueue st)) steps = true ->
  exists w1,
    initialize (storage (runSession executeOfflineAction steps w0)) b' = Some w1
    /\ id <$> offlineQueue w1
       = id <$> offlineQueue (runSession executeOfflineAction steps w0).
Proof.
  intros Hs Hinit Hsteps.
  assert (inStep w0) as Hw0.
  { unfold initialize in Hinit. destruct (loadQueue s) as [q|] eqn:Hq; [|done].
    injection Hinit as <-. split; [done|]. by exists q. }
  assert (inStep (runSession executeOfflineAction steps w0)) as (_ & p & Hp & Hids).
  { clear Hinit. revert w0 Hw0 Hsteps. unfold runSession.
    induction steps as [|st steps IH]; intros w0 Hw0 Hsteps; [done|].
    simpl in Hsteps. apply andb_prop in Hsteps as [Hst Hsteps]. simpl.
    apply IH; [|done]. apply inStep_step; [|done]. by destruct (isEnqueue st). }
  unfold initialize. rewrite Hp. simpl. by eexists.
Qed.

(** X10.  The network manager writes to the storage under the key
    [offline_queue] only: whatever a session does, every other entry
    (cache, preferences, drafts, recent searches) stays as it was. *)
Theorem session_touches_queue_key_only steps (w : World) key :
  key <> "offline_queue" ->
  storage (runSession executeOfflineAction steps w) !! key = storage w !! key.
Proof.
  intros Hne. revert w. unfold runSession.
  induction steps as [|st steps IH]; intros w; [done|].
  simpl. rewrite IH. destruct st as [a d e_mem e_sto|state|f]; simpl.
  - by apply addToOfflineQueue_frame.
  - unfold onNetInfoChange.
    destruct (negb (isConnected (networkState w)) && _); [|done].
    unfold processOfflineQueue. cbn [offlineQueue backend storage].
    destruct (length (offlineQueue w) =? 0)%nat; [done|]. cbn [storage].
    generalize (loop_processed
                  (replayLoop executeOfflineAction (offlineQueue w) (backend w))).
    intros processed. generalize (storage w).
    induction processed as [|i processed IHp]; intros s0; [done|].
    simpl. rewrite IHp. by apply removeFromOfflineQueue_frame.
  - done.
Qed.

End PersistedQueue.

Lemma persistedOnly_json : json_store persistedOnly.
Proof. apply (json_store_runCall (CallAddToOfflineQueue _ _ _)), json_store_empty. Defined.

Lemma persisted_queue_in_step_witness :
  exists w1,
    initialize
      (storage (runSession failingFirst [NetChange netOnline; NetChange netOffline]
                  loadedWorld))
      0%nat = Some w1
    /\ id <$> offlineQueue w1 = [mkId entropyB].
Proof.
  destruct (persisted_queue_in_step failingFirst persistedOnly 2%nat 0%nat loadedWorld
              [NetChange netOnline; NetChange netOffline]
              persistedOnly_json eq_refl eq_refl)
    as (w1 & Hw1 & Hids).
  exists w1. split; [exact Hw1|]. rewrite Hids. reflexivity.
Defined.

Lemma session_touches_queue_key_only_witness :
  storage (runSession failingFirst flappingSession
             (set_storage {[ "pref_theme" := VStr "dark" ]} (freshWorld 5%nat)))
    !! "pref_theme"
  = Some (VStr "dark").
Proof.
  rewrite (session_touches_queue_key_only failingFirst flappingSession _ "pref_theme").
  - reflexivity.
  - discriminate.
Defined.

(** ** Recent searches: composition *)

Lemma addRecentSearch_stored query t recent (s : Storage) :
  json_store s -> getRecentSearches t s = VArr recent ->
  addRecentSearch query t s
  = <[recentKey t :=
        VArr (VStr query
              :: take 9 (List.filter (fun item => negb (strict_eq item (VStr query)))
                                     recent))]> s.
Proof.
  intros Hjs Hrecent. unfold getRecentSearches in Hrecent.
  pose proof (stored_array _ _ _ Hjs Hrecent) as Hdata.
  unfold addRecentSearch. rewrite Hrecent.
  change (take 10 (VStr query :: ?l)) with (VStr query :: take 9 l).
  rewrite setItem_json_data; [done|].
  simpl. by apply take_forallb, filter_forallb.
Qed.

Lemma getRecentSearches_insert t l (s : Storage) :
  getRecentSearches t (<[recentKey t := VArr l]> s) = VArr l.
Proof. unfold getRecentSearches. by rewrite getItem_insert. Qed.

Lemma filter_all {A} (f : A -> bool) (l : list A) :
  (forall x, x ∈ l -> f x = true) -> List.filter f l = l.
Proof.
  induction l as [|x l IH]; [done|]. intros H. simpl.
  rewrite (H x) by left. f_equal. apply IH. intros y Hy. apply H. by right.
Qed.

Lemma json_store_addRecentSearch query t (s : Storage) :
  json_store s -> json_store (addRecentSearch query t s).
Proof. apply (json_store_runCall (CallAddRecentSearch query t)). Qed.

(** X11.  Adding the query that is already first changes nothing: a second
    [addRecentSearch] of the same query leaves the storage as the first
    one left it. *)
Theorem addRecentSearch_idempotent query t (s : Storage) :
  json_store s ->
  addRecentSearch query t (addRecentSearch query t s) = addRecentSearch query t s.
Proof.
  intros Hjs.
  destruct (js_or (getItem (recentKey t) s) (VArr [])) as [| | | | |recent|] eqn:E;
    try (by unfold addRecentSearch; rewrite E; unfold addRecentSearch; rewrite E).
  pose proof (json_store_addRecentSearch query t s Hjs) as Hs1.
  rewrite (addRecentSearch_stored query t recent s Hjs E) in *.
  set (rest := take 9 (List.filter (fun item => negb (strict_eq item (VStr query)))
                                   recent)) in *.
  rewrite (addRecentSearch_stored query t (VStr query :: rest)).
  - assert (List.filter (fun item => negb (strict_eq item (VStr query)))
                        (VStr query :: rest) = rest) as ->.
    { simpl. rewrite String.eqb_refl. simpl. apply filter_all.
      intros x Hx. apply negb_true_iff, not_true_is_false.
      intros Heq%strict_eq_VStr.
      assert (x ∈ List.filter (fun item => negb (strict_eq item (VStr query))) recent)
        as Hin by (eapply elem_of_sublist; [exact Hx|apply sublist_take]).
      by apply filter_not_elem in Hin. }
    rewrite take_ge by (unfold rest; rewrite length_take; lia).
    apply insert_insert_eq.
  - exact Hs1.
  - apply getRecentSearches_insert.
Qed.

Lemma addRecentSearch_idempotent_witness :
  let s : Storage := {[ "recent_users" := VArr [VStr "ada"; VStr "grace"] ]} in
  addRecentSearch "grace" users (addRecentSearch "grace" users s)
  = addRecentSearch "grace" users s.
Proof.
  intros s. apply addRecentSearch_idempotent.
  intros key v. unfold s. intros [<- <-]%lookup_singleton_Some. reflexivity.
Defined.

Lemma json_store_addRecentSearches queries t (s : Storage) :
  json_store s -> json_store (addRecentSearches queries t s).
Proof.
  revert s. induction queries as [|q queries IH]; intros s Hs; [done|].
  apply IH. by apply json_store_addRecentSearch.
Qed.

Lemma addRecentSearches_snoc queries q t (s : Storage) :
  addRecentSearches (queries ++ [q]) t s
  = addRecentSearch q t (addRecentSearches queries t s).
Proof. unfold addRecentSearches. by rewrite fold_left_app. Qed.

(** X12.  Starting with no list stored for the type, after distinct queries
    have been added one by one the stored list is these queries, the most
    recent first, cut to the ten most recent. *)
Theorem recent_searches_most_recent_first queries t (s : Storage) :
  json_store s ->
  s !! recentKey t = None ->
  NoDup queries ->
  getRecentSearches t (addRecentSearches queries t s)
  = VArr (take 10 (VStr <$> rev queries)).
Proof.
  intros Hjs Hnone. induction queries as [|q queries IH] using rev_ind.
  - intros _. unfold getRecentSearches, getItem. simpl. by rewrite Hnone.
  - intros [Hnd [Hq _]]%NoDup_app. specialize (IH Hnd).
    rewrite addRecentSearches_snoc.
    rewrite (addRecentSearch_stored q t _ _ (json_store_addRecentSearches _ _ _ Hjs) IH).
    rewrite getRecentSearches_insert. f_equal.
    rewrite rev_app_distr. simpl. f_equal.
    rewrite filter_all.
    + rewrite take_take. by replace (9 `min` 10)%nat with 9%nat by lia.
    + intros x Hx. apply negb_true_iff, not_true_is_false.
      intros ->%strict_eq_VStr.
      assert (VStr q ∈ VStr <$> rev queries) as Hx'
        by (eapply elem_of_sublist; [exact Hx|apply sublist_take]).
      clear Hx. apply list_elem_of_fmap in Hx' as (q' & [= <-] & Hin).
      apply (Hq q); [|by left]. apply list_elem_of_In, in_rev.
      by apply list_elem_of_In.
Qed.

Lemma recent_searches_most_recent_first_witness :
  getRecentSearches posts (addRecentSearches ["mox"; "lotus"; "ruby"] posts ∅)
  = VArr [VStr "ruby"; VStr "lotus"; VStr "mox"].
Proof.
  apply (recent_searches_most_recent_first ["mox"; "lotus"; "ruby"] posts ∅).
  - apply json_store_empty.
  - reflexivity.
  - apply (bool_decide_unpack _). vm_compute. exact I.
Defined.

Lemma recentKey_inj t t' : recentKey t = recentKey t' -> t = t'.
Proof. by destruct t, t'. Qed.

Lemma addRecentSearch_frame query t (s : Storage) key :
  key <> recentKey t -> addRecentSearch query t s !! key = s !! key.
Proof.
  intros Hne. unfold addRecentSearch.
  destruct (js_or _ _); try done. rewrite setItem_caught. by apply setItem_frame.
Qed.

(** X13.  The lists of the three search types are separate: adding to or
    clearing the list of one type leaves the lists of the others as they
    are, and clearing a list leaves the empty list for its type. *)
Theorem recent_searches_by_type t t' query (s : Storage) :
  t <> t' ->
  getRecentSearches t' (addRecentSearch query t s) = getRecentSearches t' s
  /\ getRecentSearches t' (clearRecentSearches t s) = getRecentSearches t' s
  /\ getRecentSearches t (clearRecentSearches t s) = VArr [].
Proof.
  intros Hne.
  assert (recentKey t' <> recentKey t) as Hk by (intros ?%recentKey_inj; by subst).
  unfold getRecentSearches. split; [|split].
  - by rewrite (getItem_ext s) by by apply addRecentSearch_frame.
  - by rewrite (getItem_ext s) by by apply lookup_delete_ne.
  - unfold clearRecentSearches, removeItem, getItem. by rewrite lookup_delete_eq.
Qed.

Lemma recent_searches_by_type_witness :
  getRecentSearches users
    (addRecentSearch "lotus" posts {[ "recent_users" := VArr [VStr "ada"] ]})
  = VArr [VStr "ada"].
Proof.
  rewrite (proj1 (recent_searches_by_type posts users "lotus"
                    {[ "recent_users" := VArr [VStr "ada"] ]} ltac:(discriminate))).
  reflexivity.
Defined.

(** ** Listeners *)






Section Listeners.

Context {Backend : Type}.
Variable executeOfflineAction : QueueItem -> Backend -> Outcome unit * Backend.



(** ** The replay as the source has it *)

Lemma replayLoop_logging items (b : Backend) :
  replayLoop executeOfflineAction_logging items b
  = {| loop_items := items; loop_processed := id <$> items; loop_backend := b;
       loop_attempts := (fun item => (item, true)) <$> items |}.
Proof.
  induction items as [|item items IH]; [done|]. simpl. by rewrite IH.
Qed.

(** X15.  With [executeOfflineAction] as it is written, which only logs, a pass
    over a queue that is not empty hands every item over once, leaves the
    in-memory queue empty and the backend untouched, and raises one "Sync
    Complete" alert that counts all the items; when storage and memory
    were in step the persisted queue is empty afterwards as well. *)
Theorem replay_as_written (w : World (Backend := Backend)) :
  offlineQueue w <> [] ->
  let w' := processOfflineQueue executeOfflineAction_logging w in
  offlineQueue w' = []
  /\ executed w' = executed w ++ offlineQueue w
  /\ backend w' = backend w
  /\ alerts w' = alerts w ++ [syncAlert (length (offlineQueue w))]
  /\ (inStep w -> loadQueue (storage w') = Some []).
Proof.
  intros Hq w'.
  assert (offlineQueue w' = []) as Hempty.
  { unfold w', processOfflineQueue.
    destruct (offlineQueue w) as [|item q] eqn:E; [done|].
    cbn [length Nat.eqb offlineQueue]. rewrite replayLoop_logging.
    cbn [loop_items loop_processed]. generalize (item :: q). intros items.
    assert (forall l, (forall x, x ∈ l -> x ∈ items) ->
              List.filter (fun x => negb (includes (id <$> items) (id x))) l = [])
      as H; [|by apply H].
    induction l as [|x l IH]; [done|]. intros Hl. simpl.
    assert (includes (id <$> items) (id x) = true) as ->.
    { apply includes_elem_of, list_elem_of_fmap_2, Hl. by left. }
    simpl. apply IH. intros y Hy. apply Hl. by right. }
  split; [done|]. split; [apply processOfflineQueue_executed|].
  split; [|split].
  - unfold w', processOfflineQueue.
    destruct (length (offlineQueue w) =? 0)%nat; [done|].
    by rewrite replayLoop_logging.
  - unfold w', processOfflineQueue.
    destruct (offlineQueue w) as [|item q] eqn:E; [done|].
    cbn [length Nat.eqb alerts]. rewrite replayLoop_logging.
    cbn [loop_processed]. by rewrite length_fmap.
  - intros Hstep.
    destruct (inStep_pass executeOfflineAction_logging w Hstep)
      as (_ & p & Hp & Hids).
    fold w' in Hp, Hids. rewrite Hempty in Hids.
    by apply fmap_nil_inv in Hids as ->.
Qed.

(** X16.  The number in the "Sync Complete" alert is the number of attempts of
    the pass that succeeded or were given up at the retry limit, the two
    counted alike, and there is no alert when there is no such attempt. *)
Theorem sync_alert_counts_dropped (w : World (Backend := Backend)) :
  let attempts :=
    loop_attempts (replayLoop executeOfflineAction (offlineQueue w) (backend w)) in
  let n := length (List.filter dropped attempts) in
  alerts (processOfflineQueue executeOfflineAction w)
  = if (0 <? n)%nat then alerts w ++ [syncAlert n] else alerts w.
Proof.
  intros attempts n. unfold n, attempts, processOfflineQueue.
  destruct (length (offlineQueue w) =? 0)%nat eqn:E.
  - apply Nat.eqb_eq, nil_length_inv in E. by rewrite E.
  - cbn [alerts]. by rewrite replayLoop_processed, length_fmap.
Qed.

End Listeners.


Lemma replay_as_written_witness :
  offlineQueue (processOfflineQueue executeOfflineAction_logging queuedOffline) = [].
Proof.
  apply (replay_as_written queuedOffline). discriminate.
Defined.

(** ** makeRequest: the remaining paths *)

Section MakeRequestMore.

Context {Backend : Type}.
Variable requestFn : Backend -> Outcome JsVal * Backend.

(** X17.  Without a cache key (omitted, or the empty string) [makeRequest]
    leaves the storage alone: offline it returns the fallback, or throws
    when there is none, without calling [requestFn]; online it calls
    [requestFn] once and passes on what that returns or throws. *)
Theorem makeRequest_without_key fallbackData cacheKey t
    (w : World (Backend := Backend)) :
  givenKey cacheKey = None ->
  let r := makeRequest requestFn fallbackData cacheKey t w in
  storage (res_world r) = storage w
  /\ (isOffline w = true ->
      res_called r = false
      /\ backend (res_world r) = backend w
      /\ res_outcome r
         = if strict_eq fallbackData VUndef then Throws noConnectionError
           else Returns fallbackData)
  /\ (isOffline w = false ->
      res_called r = true
      /\ res_outcome r = (requestFn (backend w)).1
      /\ backend (res_world r) = (requestFn (backend w)).2).
Proof.
  intros Hkey r. unfold r, makeRequest. rewrite Hkey.
  destruct (isOffline w).
  - split; [by destruct fallbackData|]. split; [|done]. intros _.
    by destruct fallbackData.
  - destruct (requestFn (backend w)) as [[result|error] b1];
      [|unfold requestFailed; rewrite Hkey]; by repeat split.
Qed.

(** X18.  What an online request has cached serves the offline request that
    follows: after [makeRequest] has fetched a truthy JSON result under a
    non-empty key, a [makeRequest] for that key by an offline manager over
    the same storage, made no later than 30 minutes after the caching,
    returns that result and does not call its request function. *)
Theorem makeRequest_offline_after_online fallbackData k t result b1
    (w : World (Backend := Backend)) :
  k <> "" ->
  isOffline w = false ->
  requestFn (backend w) = (Returns result, b1) ->
  json_data result = true ->
  truthy result = true ->
  forall (laterFn : Backend -> Outcome JsVal * Backend) laterFallback t'
         (w' : World (Backend := Backend)),
    storage w' = storage (res_world (makeRequest requestFn fallbackData (Some k) t w)) ->
    isOffline w' = true ->
    t_offline_lookup t' <= t_expiry t + 30 * 60 * 1000 ->
    res_outcome (makeRequest laterFn laterFallback (Some k) t' w') = Returns result
    /\ res_called (makeRequest laterFn laterFallback (Some k) t' w') = false.
Proof.
  intros Hk Hon Hreq Hd Ht laterFn laterFallback t' w' Hs Hoff Hfresh.
  rewrite makeRequest_online, Hreq in Hs by done.
  rewrite setCache_supplied in Hs by done. cbn [res_world storage set_storage] in Hs.
  rewrite makeRequest_offline by done.
  rewrite (getCache_entry k result (t_stamp t) (Some (t_expiry t + 30 * 60 * 1000)))
    by (rewrite Hs; apply lookup_insert_eq).
  replace (t_expiry t + 30 * 60 * 1000 <? t_offline_lookup t') with false
    by (symmetry; apply Z.ltb_ge; lia).
  rewrite andb_false_r. by rewrite Ht.
Qed.

(** ** Connection quality *)

(** X19.  The connection is rated [offline] exactly when the manager is offline,
    also on a connected network whose internet is not reachable; it is
    rated [excellent] exactly when the manager is online over "wifi"; and
    [shouldOptimizeForBandwidth] holds exactly when the manager is offline
    or the network type is "2g". *)
Theorem connection_quality (w : World (Backend := Backend)) :
  (getConnectionQuality w = offline <-> isOffline w = true)
  /\ (getConnectionQuality w = excellent
      <-> isOnline w = true /\ type (networkState w) = "wifi")
  /\ (shouldOptimizeForBandwidth w = true
      <-> isOffline w = true \/ type (networkState w) = "2g").
Proof.
  unfold shouldOptimizeForBandwidth, getConnectionQuality, isOffline.
  destruct (isOnline w); simpl; [|intuition congruence].
  destruct (String.eqb (type (networkState w)) "wifi") eqn:Ewifi;
    [apply String.eqb_eq in Ewifi; rewrite Ewifi; intuition congruence|].
  apply String.eqb_neq in Ewifi.
  destruct (String.eqb (type (networkState w)) "cellular") eqn:Ecell;
    [apply String.eqb_eq in Ecell; rewrite Ecell; intuition congruence|].
  destruct (String.eqb (type (networkState w)) "2g") eqn:E2g;
    [apply String.eqb_eq in E2g|apply String.eqb_neq in E2g];
    intuition congruence.
Qed.

End MakeRequestMore.

Lemma makeRequest_without_key_witness :
  res_outcome (makeRequest requestUnread VUndef (Some "") soonAfter cachedZero)
  = Throws noConnectionError.
Proof.
  destruct (makeRequest_without_key requestUnread VUndef (Some "") soonAfter cachedZero)
    as (_ & Hoffline & _); [reflexivity|].
  destruct Hoffline as (_ & _ & Hout); [reflexivity|]. exact Hout.
Defined.

Lemma makeRequest_offline_after_online_witness :
  res_outcome
    (makeRequest requestTimeout VUndef (Some "unread") tenMinutesLater
       (set_storage
          (storage (res_world (makeRequest requestUnread VUndef (Some "unread")
                                 soonAfter onlineWorld)))
          (freshWorld tt)))
  = Returns (VNum 3).
Proof.
  apply (makeRequest_offline_after_online requestUnread VUndef "unread" soonAfter
           (VNum 3) tt onlineWorld);
    try reflexivity; try discriminate.
Defined.
